(** * RecoveredTreasureTX: the card query, sort and classification core

    A shallow embedding of the pure parts of [card_search.py],
    [batch_operations.py], [ebay_lister.py], [facebook_lister.py],
    [analyze_collection.py], [simple_analysis.py] and [visualizations.py],
    followed by the properties of the specification that concern them and
    by further properties of the code.

    Conventions of the embedding.
    - A card is one row of the CSV file, as [csv.DictReader] yields it after
      [CardSearcher.load_data] has coerced [year] to an [int] and
      [market_value] to a number.  Text fields are strings of 8-bit
      characters; [str.lower] and [str.strip] are modelled on the ASCII
      letters and the ASCII whitespace.
    - Arithmetic on floating-point numbers (sums, products, rounding) is
      not computed: where a function needs it, the operation is a variable
      of the section that holds the function.
    - [market_value] is the [int] 0 or a [float], which the code only ever
      compares ([<], [>], [>=], [==]) with other numbers.  A finite number
      is carried as the rational it denotes; the two infinities and NaN,
      which [float] also reads from a cell, are values of their own, and
      every comparison with NaN is false.
    - A keyword argument that may be [None] is an [option]; Python's
      truthiness test ([if x:]) is written out for each type. *)

From Stdlib Require Import List Bool ZArith QArith String Ascii Lia Lqa.
From Stdlib Require Import DecimalString.
From Stdlib Require Import Permutation Sorted.
Import ListNotations.

Open Scope string_scope.
Open Scope Z_scope.

(** ** Numbers *)

(** A Python [int] or [float]: a finite number, an infinity or NaN. *)
Inductive num : Type :=
  | Fin (q : Q)
  | PosInf
  | NegInf
  | NaN.

Coercion Fin : Q >-> num.
Bind Scope Q_scope with num.

Definition is_nan (a : num) : bool :=
  match a with NaN => true | _ => false end.

(** [a < b]: false as soon as one side is NaN. *)
Definition num_lt (a b : num) : bool :=
  match a, b with
  | NaN, _ | _, NaN => false
  | Fin x, Fin y => negb (Qle_bool y x)
  | NegInf, NegInf => false
  | NegInf, _ => true
  | _, NegInf => false
  | PosInf, _ => false
  | Fin _, PosInf => true
  end.

(** [a <= b] *)
Definition num_le (a b : num) : bool :=
  match a, b with
  | NaN, _ | _, NaN => false
  | Fin x, Fin y => Qle_bool x y
  | NegInf, _ => true
  | _, PosInf => true
  | _, NegInf => false
  | PosInf, _ => false
  end.

(** [a > b] and [a >= b] *)
Definition num_gt (a b : num) : bool := num_lt b a.
Definition num_ge (a b : num) : bool := num_le b a.

(** [a == b]: NaN is equal to nothing, not even to itself. *)
Definition num_eq (a b : num) : bool :=
  match a, b with
  | Fin x, Fin y => Qeq_bool x y
  | PosInf, PosInf | NegInf, NegInf => true
  | _, _ => false
  end.

(** [a is b or a == b], the test by which a list or a dictionary finds a
    value: a value is found where it stands itself, NaN included.  Values
    have no identity here, so two NaN count as the same value. *)
Definition num_same (a b : num) : bool :=
  match a, b with
  | NaN, NaN => true
  | _, _ => num_eq a b
  end.

(** Truthiness of a number: not zero; NaN is truthy. *)
Definition truthy_num (a : num) : bool :=
  match a with
  | Fin q => negb (Qeq_bool q 0)
  | _ => true
  end.

(** ** Python built-ins used by the code *)

Module Py.

(** [c.lower()] on one character: the letters [A]..[Z] are shifted to
    [a]..[z], every other character is kept. *)
Definition lower_ascii (a : ascii) : ascii :=
  let n := nat_of_ascii a in
  if (Nat.leb 65 n && Nat.leb n 90)%bool then ascii_of_nat (n + 32) else a.

(** [s.lower()] *)
Fixpoint lower (s : string) : string :=
  match s with
  | EmptyString => EmptyString
  | String a s' => String (lower_ascii a) (lower s')
  end.

(** [needle in hay] on strings: [needle] occurs as a contiguous substring. *)
Fixpoint str_in (needle hay : string) : bool :=
  (String.prefix needle hay
   || match hay with
      | EmptyString => false
      | String _ hay' => str_in needle hay'
      end)%bool.

(** Truthiness of a string: non-empty. *)
Definition truthy_str (s : string) : bool := negb (s =? "")%string.

(** Truthiness of [kwargs.get(k)] for a string value. *)
Definition truthy_ostr (o : option string) : bool :=
  match o with Some s => truthy_str s | None => false end.

(** Truthiness of an optional [int]: present and non-zero. *)
Definition truthy_oint (o : option Z) : bool :=
  match o with Some n => negb (n =? 0) | None => false end.

(** Truthiness of an optional number: present and non-zero. *)
Definition truthy_onum (o : option num) : bool :=
  match o with Some a => truthy_num a | None => false end.

(** [l[:n]] for an integer [n]: the first [n] elements when [n >= 0]
    (all of them when [n] exceeds the length); for a negative [n] the bound
    counts from the end, so the last [-n] elements are dropped. *)
Definition slice_to {A : Type} (l : list A) (n : Z) : list A :=
  if n <? 0
  then firstn (Z.to_nat (Z.max 0 (Z.of_nat (List.length l) + n))) l
  else firstn (Z.to_nat n) l.

(** [x in l] on lists, for an element type whose [==] is [eqb]. *)
Definition list_in {A : Type} (eqb : A -> A -> bool) (x : A) (l : list A)
  : bool :=
  existsb (fun y => eqb x y) l.

(** Truthiness of an [int]: non-zero. *)
Definition truthy_int (n : Z) : bool := negb (n =? 0).

(** [str(n)] for an [int]: its decimal digits, with a leading [-] when
    negative. *)
Definition str_of_int (n : Z) : string :=
  NilZero.string_of_int (Z.to_int n).

(** [sep.join(parts)] *)
Definition join (sep : string) (parts : list string) : string :=
  String.concat sep parts.

(** [s[:n]] on a string, for [n >= 0]. *)
Definition str_slice_to (s : string) (n : nat) : string :=
  String.substring 0 n s.

(** [s.replace(old, new)]: the occurrences of [old] are replaced from the
    left, without overlap.  [replace_from] skips the [skip] characters that
    remain of an occurrence already replaced.  For an empty [old], [new] is
    put before every character and at the end. *)
Fixpoint replace_from (old new : string) (skip : nat) (s : string) : string :=
  match s with
  | EmptyString => EmptyString
  | String c s' =>
      match skip with
      | S k => replace_from old new k s'
      | O =>
          if String.prefix old s
          then (new ++ replace_from old new (String.length old - 1) s')%string
          else String c (replace_from old new 0 s')
      end
  end.

Fixpoint replace_empty (new s : string) : string :=
  match s with
  | EmptyString => new
  | String c s' => (new ++ String c (replace_empty new s'))%string
  end.

Definition replace (s old new : string) : string :=
  match old with
  | EmptyString => replace_empty new s
  | String _ _ => replace_from old new 0 s
  end.

(** [s.strip()]: leading and trailing whitespace is removed.  The
    whitespace characters of the ASCII range are tab, line feed, vertical
    tab, form feed, carriage return, the four separators 28 to 31 and the
    space. *)
Definition is_space (a : ascii) : bool :=
  let n := nat_of_ascii a in
  ((Nat.leb 9 n && Nat.leb n 13) || (Nat.leb 28 n && Nat.leb n 32))%bool.

Fixpoint lstrip (s : string) : string :=
  match s with
  | EmptyString => EmptyString
  | String c s' => if is_space c then lstrip s' else s
  end.

Fixpoint rstrip (s : string) : string :=
  match s with
  | EmptyString => EmptyString
  | String c s' =>
      let r := rstrip s' in
      if (is_space c && (r =? "")%string)%bool then EmptyString
      else String c r
  end.

Definition strip (s : string) : string := rstrip (lstrip s).

(** [list.sort(key=..., reverse=...)], as CPython sorts a list of fewer
    than 64 elements (Objects/listobject.c, [list_sort_impl] with
    [count_run] and [binarysort]).  Only [<] is used on the keys
    ([ltb]).  The longest run at the start of the list that either never
    descends or descends strictly is found, and turned round in the second
    case; every further element is then put into the part already sorted,
    at the place that a binary search finds for it.  With [reverse=True]
    the list is turned round before and after.  A longer list is cut into
    several runs that are prepared in this way and then merged; for keys
    that [<] orders (every key here but a number among which there is a
    NaN) this gives the same list, the sort being stable.  With a NaN
    among the keys of 64 rows or more the merged list can be another
    arrangement of the rows than the one computed here. *)
Section Sort.
Context {A K : Type}.
Variable key : A -> K.
Variable ltb : K -> K -> bool.

(** [ISLT(x, y)] on the keys of two elements. *)
Definition islt (x y : A) : bool := ltb (key x) (key y).

(** The number of elements of [l] that continue a run after [prev]. *)
Fixpoint run_ascending (prev : A) (l : list A) : nat :=
  match l with
  | [] => O
  | x :: l' => if islt x prev then O else S (run_ascending x l')
  end.

Fixpoint run_descending (prev : A) (l : list A) : nat :=
  match l with
  | [] => O
  | x :: l' => if islt x prev then S (run_descending x l') else O
  end.

(** [count_run]: the length of the first run, and whether it descends. *)
Definition count_run (l : list A) : nat * bool :=
  match l with
  | [] => (O, false)
  | [x] => (1%nat, false)
  | x :: y :: l' =>
      if islt y x then (2 + run_descending y l', true)%nat
      else (2 + run_ascending y l', false)%nat
  end.

(** The binary search of [binarysort] for the place of [pivot] in
    [a[l..r)]: the middle element is probed, the search goes on to its left
    when [pivot] is less and to its right otherwise.  [fuel] bounds the
    number of probes. *)
Fixpoint bisect (fuel : nat) (pivot : A) (a : list A) (l r : nat) : nat :=
  match fuel with
  | O => l
  | S fuel' =>
      if Nat.ltb l r then
        let p := (l + (r - l) / 2)%nat in
        match nth_error a p with
        | Some x =>
            if islt pivot x then bisect fuel' pivot a l p
            else bisect fuel' pivot a (p + 1) r
        | None => l
        end
      else l
  end.

(** One turn of [binarysort]: [pivot] is put into the sorted part. *)
Definition binary_insert (sorted : list A) (pivot : A) : list A :=
  let n := bisect (List.length sorted) pivot sorted 0 (List.length sorted) in
  (firstn n sorted ++ pivot :: skipn n sorted)%list.

Definition sort_forward (l : list A) : list A :=
  match l with
  | [] | [_] => l
  | _ :: _ :: _ =>
      let (n, descending) := count_run l in
      let run := firstn n l in
      let run := if descending then rev run else run in
      fold_left binary_insert (skipn n l) run
  end.

Definition sort (reverse : bool) (l : list A) : list A :=
  if reverse then rev (sort_forward (rev l)) else sort_forward l.
End Sort.

(** A [dict], as the list of its items in insertion order.  [eqb] is the
    [==] of the keys. *)
Section Dict.
Context {K V : Type}.
Variable eqb : K -> K -> bool.

(** [d.get(k)] *)
Fixpoint dict_get (d : list (K * V)) (k : K) : option V :=
  match d with
  | [] => None
  | (k', v) :: d' => if eqb k' k then Some v else dict_get d' k
  end.

(** [k in d] *)
Definition dict_mem (d : list (K * V)) (k : K) : bool :=
  match dict_get d k with Some _ => true | None => false end.

(** [d[k] = v]: a key that is present keeps its place, a new key goes to
    the end. *)
Fixpoint dict_set (d : list (K * V)) (k : K) (v : V) : list (K * V) :=
  match d with
  | [] => [(k, v)]
  | (k', v') :: d' =>
      if eqb k' k then (k', v) :: d' else (k', v') :: dict_set d' k v
  end.
End Dict.

End Py.

(** ** The card record *)

(** One row of the collection, with the fixed CSV header
    [collx_id, name, team, year, brand, set, number, condition, flags,
     market_value, front_image, back_image, added]. *)
Record Card : Type := mkCard {
  collx_id : string;
  name : string;
  team : string;
  year : Z;
  brand : string;
  card_set : string;
  number : string;
  condition : string;
  flags : string;
  market_value : num;
  front_image : string;
  back_image : string;
  added : string
}.

(** [c1 is c2 or c1 == c2] on rows, the test of [c1 in cards]: the same
    row, or equal values under every key.  Numbers compare by value.  A
    row is a value here, without an identity of its own: a row whose
    value is NaN is found where it stands itself, as in Python.  Two rows
    of the file that agree in every cell and both read NaN are two
    different rows for Python and one row here; the searches cannot tell
    them apart, since what they test of a row are its cells. *)
Definition card_eqb (c1 c2 : Card) : bool :=
  ((collx_id c1 =? collx_id c2)%string
   && (name c1 =? name c2)%string
   && (team c1 =? team c2)%string
   && (year c1 =? year c2)
   && (brand c1 =? brand c2)%string
   && (card_set c1 =? card_set c2)%string
   && (number c1 =? number c2)%string
   && (condition c1 =? condition c2)%string
   && (flags c1 =? flags c2)%string
   && num_same (market_value c1) (market_value c2)
   && (front_image c1 =? front_image c2)%string
   && (back_image c1 =? back_image c2)%string
   && (added c1 =? added c2)%string)%bool.

(** [card in cards] *)
Definition card_in (c : Card) (l : list Card) : bool :=
  Py.list_in card_eqb c l.

(** [card['flags'] and 'RC' in card['flags']]: the rookie test, written the
    same way at every place of the code that needs it. *)
Definition is_rookie (card : Card) : bool :=
  (Py.truthy_str (flags card) && Py.str_in "RC" (flags card))%bool.

(** ** [card_search.py]: class [CardSearcher] *)

Module CardSearcher.

(** The keyword arguments of [advanced_search]; [None] is a key that is
    absent (or present with the value [None]).  [exact_name] and
    [rookie_only] are read as booleans, absent meaning [False]. *)
Record Kwargs : Type := mkKwargs {
  kw_name : option string;
  kw_exact_name : bool;
  kw_team : option string;
  kw_year : option Z;
  kw_year_min : option Z;
  kw_year_max : option Z;
  kw_brand : option string;
  kw_min_value : option num;
  kw_max_value : option num;
  kw_condition : option string;
  kw_rookie_only : bool
}.

(** The call [advanced_search()] with no keyword at all. *)
Definition no_kwargs : Kwargs :=
  mkKwargs None false None None None None None None None None false.

(** The value of [kwargs[k]] for a string key that was tested truthy. *)
Definition get_str (o : option string) : string :=
  match o with Some s => s | None => "" end.

Section LoadData.
(** [float(s)] and [int(s)] on the text of a CSV cell: [None] when Python
    raises. *)
Variable parse_float : string -> option num.
Variable parse_int : string -> option Z.

(** The two coercions of [load_data]: an empty or unparseable cell
    becomes 0. *)
Definition load_market_value (raw : string) : num :=
  if Py.truthy_str raw
  then match parse_float raw with Some v => v | None => Fin 0 end
  else Fin 0.

Definition load_year (raw : string) : Z :=
  if Py.truthy_str raw
  then match parse_int raw with Some y => y | None => 0 end
  else 0.
End LoadData.

Section Methods.
(** [self.cards] *)
Variable cards : list Card.

Definition search_by_name (name_ : string) (exact : bool) : list Card :=
  let name_lower := Py.lower name_ in
  filter (fun card =>
            let card_name := Py.lower (name card) in
            if exact then (card_name =? name_lower)%string
            else Py.str_in name_lower card_name)
         cards.

Definition search_by_team (team_ : string) : list Card :=
  let team_lower := Py.lower team_ in
  filter (fun card => Py.str_in team_lower (Py.lower (team card))) cards.

(** The body of the loop of [search_by_year]: is [card] appended? *)
Definition year_keeps (year_ year_min year_max : option Z) (card : Card)
  : bool :=
  let card_year := year card in
  match year_ with
  | Some y => card_year =? y
  | None =>
      match year_min, year_max with
      | None, None => false
      | _, _ =>
          if (Py.truthy_oint year_min
              && match year_min with Some m => card_year <? m
                                   | None => false end)%bool
          then false
          else if (Py.truthy_oint year_max
                   && match year_max with Some m => card_year >? m
                                        | None => false end)%bool
          then false
          else true
      end
  end.

Definition search_by_year (year_ year_min year_max : option Z)
  : list Card :=
  filter (year_keeps year_ year_min year_max) cards.

Definition search_by_brand (brand_ : string) : list Card :=
  let brand_lower := Py.lower brand_ in
  filter (fun card => Py.str_in brand_lower (Py.lower (brand card))) cards.

(** The body of the loop of [search_by_value]. *)
Definition value_keeps (min_value max_value : option num) (card : Card)
  : bool :=
  let value := market_value card in
  if match min_value with Some m => num_lt value m | None => false end
  then false
  else if match max_value with Some m => num_gt value m
                             | None => false end
  then false
  else true.

Definition search_by_value (min_value max_value : option num)
  : list Card :=
  filter (value_keeps min_value max_value) cards.

Definition search_by_condition (condition_ : string) : list Card :=
  let condition_lower := Py.lower condition_ in
  filter (fun card =>
            (Py.truthy_str (condition card)
             && Py.str_in condition_lower (Py.lower (condition card)))%bool)
         cards.

Definition search_rookie_cards : list Card :=
  filter is_rookie cards.

Definition search_high_value_cards (threshold : num) : list Card :=
  filter (fun card => num_ge (market_value card) threshold) cards.

(** [[card for card in results if card in other]] *)
Definition keep_in (results other : list Card) : list Card :=
  filter (fun card => card_in card other) results.

Definition advanced_search (kw : Kwargs) : list Card :=
  let results := cards in
  let results :=
    if Py.truthy_ostr (kw_name kw)
    then keep_in results
           (search_by_name (get_str (kw_name kw)) (kw_exact_name kw))
    else results in
  let results :=
    if Py.truthy_ostr (kw_team kw)
    then keep_in results (search_by_team (get_str (kw_team kw)))
    else results in
  let results :=
    if Py.truthy_oint (kw_year kw)
    then keep_in results (search_by_year (kw_year kw) None None)
    else results in
  let results :=
    if (Py.truthy_oint (kw_year_min kw)
        || Py.truthy_oint (kw_year_max kw))%bool
    then keep_in results
           (search_by_year None (kw_year_min kw) (kw_year_max kw))
    else results in
  let results :=
    if Py.truthy_ostr (kw_brand kw)
    then keep_in results (search_by_brand (get_str (kw_brand kw)))
    else results in
  let results :=
    if (Py.truthy_onum (kw_min_value kw)
        || Py.truthy_onum (kw_max_value kw))%bool
    then keep_in results
           (search_by_value (kw_min_value kw) (kw_max_value kw))
    else results in
  let results :=
    if Py.truthy_ostr (kw_condition kw)
    then keep_in results (search_by_condition (get_str (kw_condition kw)))
    else results in
  let results :=
    if kw_rookie_only kw
    then keep_in results search_rookie_cards
    else results in
  results.
End Methods.

(** [sort_results]: the list is sorted in place and returned; an unknown
    [sort_by] leaves it as it is. *)
Definition sort_results (results : list Card) (sort_by : string)
  (descending : bool) : list Card :=
  if (sort_by =? "value")%string
  then Py.sort market_value num_lt descending results
  else if (sort_by =? "year")%string
  then Py.sort year Z.ltb descending results
  else if (sort_by =? "name")%string
  then Py.sort (fun x => Py.lower (name x)) String.ltb descending results
  else if (sort_by =? "team")%string
  then Py.sort (fun x => Py.lower (team x)) String.ltb descending results
  else if (sort_by =? "brand")%string
  then Py.sort (fun x => Py.lower (brand x)) String.ltb descending results
  else results.

(** The first statement of [format_results]:
    [if limit: results = results[:limit]]. *)
Definition limit_results (results : list Card) (limit : option Z)
  : list Card :=
  if Py.truthy_oint limit
  then match limit with
       | Some n => Py.slice_to results n
       | None => results
       end
  else results.

Section Format.
(** The text built from the (limited) results for display, lines 202
    to 223: one block per card, numbered from 1. *)
Variable render : bool -> list Card -> string.

Definition format_results (results : list Card) (detailed : bool)
  (limit : option Z) : string :=
  let results := limit_results results limit in
  match results with
  | [] => "No cards found matching your criteria."
  | _ => render detailed results
  end.
End Format.

End CardSearcher.

(** ** [batch_operations.py]: class [BatchOperations] *)

Module BatchOperations.

(** The body of the loop of [select_cards_for_sale]: is [card] appended to
    [candidates]? *)
Definition sale_candidate (min_value : num) (exclude_favorites : bool)
  (card : Card) : bool :=
  if num_lt (market_value card) min_value then false
  else if (exclude_favorites && num_gt (market_value card) 500)%bool
  then false
  else if (exclude_favorites && is_rookie card
           && num_gt (market_value card) 100)%bool
  then false
  else if (exclude_favorites && (year card <=? 1980)
           && num_gt (market_value card) 50)%bool
  then false
  else Py.list_in String.eqb (condition card)
         ["Mint"; "Near Mint"; "Excellent"].

(** [cards] is [self.searcher.cards]. *)
Definition select_cards_for_sale (cards : list Card) (min_value : num)
  (max_cards : Z) (exclude_favorites : bool) : list Card :=
  let candidates := filter (sale_candidate min_value exclude_favorites) cards in
  let candidates := Py.sort market_value num_lt true candidates in
  Py.slice_to candidates max_cards.

Definition _categorize_value (value : num) : string :=
  if num_ge value 100 then "High Value ($100+)"
  else if num_ge value 20 then "Medium Value ($20-$99)"
  else if num_ge value 5 then "Low Value ($5-$19)"
  else "Minimal Value (<$5)".

(** The set literal of [_determine_sport]. *)
Definition football_teams : list string :=
  [ "Kansas City Chiefs"; "Houston Texans"; "Minnesota Vikings";
    "New England Patriots"; "Carolina Panthers"; "Los Angeles Rams";
    "New York Giants"; "Baltimore Ravens"; "New York Jets"; "Detroit Lions";
    "Tampa Bay Buccaneers"; "Pittsburgh Steelers"; "Jacksonville Jaguars";
    "Washington Redskins"; "Dallas Cowboys"; "Indianapolis Colts";
    "Green Bay Packers"; "Philadelphia Eagles"; "Miami Dolphins";
    "Buffalo Bills"; "Oakland Raiders"; "Cleveland Browns";
    "Seattle Seahawks"; "Arizona Cardinals"; "Los Angeles Raiders";
    "Phoenix Cardinals"; "San Francisco 49ers"; "Denver Broncos" ].

Definition _determine_sport (team_ : string) : string :=
  if Py.list_in String.eqb team_ football_teams
  then "Football" else "Baseball".

(** The derived columns [is_vintage] and [is_modern] of
    [generate_inventory_report]. *)
Definition is_vintage (card : Card) : string :=
  if year card <=? 1999 then "Yes" else "No".

Definition is_modern (card : Card) : string :=
  if year card >=? 2020 then "Yes" else "No".

(** One row of the inventory report: the copy of the card with the five
    derived columns. *)
Record EnhancedCard : Type := mkEnhancedCard {
  ec_card : Card;
  ec_is_rookie : string;
  ec_is_vintage : string;
  ec_is_modern : string;
  ec_value_category : string;
  ec_sport : string
}.

Definition enhance (card : Card) : EnhancedCard :=
  mkEnhancedCard card
    (if is_rookie card then "Yes" else "No")
    (is_vintage card)
    (is_modern card)
    (_categorize_value (market_value card))
    (_determine_sport (team card)).

(** The rows that [generate_inventory_report] writes after the header, in
    the order written. *)
Definition generate_inventory_report (cards : list Card)
  : list EnhancedCard :=
  let enhanced_cards := map enhance cards in
  Py.sort (fun x => market_value (ec_card x)) num_lt true enhanced_cards.

(** One entry of [strategy['cards']]. *)
Record CardPricing : Type := mkCardPricing {
  cp_collx_id : string;
  cp_name : string;
  cp_market_value : num;
  cp_asking_price : num;
  cp_quick_sale : num;
  cp_minimum_price : num;
  cp_tier : string
}.

(** The dictionary that [create_pricing_strategy] returns. *)
Record Strategy : Type := mkStrategy {
  st_created_date : string;
  st_market_factor : num;
  st_total_cards : nat;
  st_pricing_tiers : list (string * list CardPricing);
  st_cards : list CardPricing
}.

Section Pricing.
(** [datetime.now().isoformat()] at the time of the call. *)
Variable now : string.
(** [round(market_value * factor, 2)], computed in floating point. *)
Variable rounded_share : num -> num -> num.

Definition card_pricing (market_factor : num) (card : Card)
  : CardPricing :=
  let market_value_ := market_value card in
  mkCardPricing (collx_id card) (name card) market_value_
    (rounded_share market_value_ market_factor)
    (rounded_share market_value_ (Fin (75 # 100)))
    (rounded_share market_value_ (Fin (6 # 10)))
    (_categorize_value market_value_).

(** One turn of the loop that groups the entries by tier. *)
Definition add_to_tier (tiers : list (string * list CardPricing))
  (card : CardPricing) : list (string * list CardPricing) :=
  let tier := cp_tier card in
  let tiers :=
    if negb (Py.dict_mem String.eqb tiers tier)
    then Py.dict_set String.eqb tiers tier []
    else tiers in
  Py.dict_set String.eqb tiers tier
    (match Py.dict_get String.eqb tiers tier with
     | Some l => l
     | None => []
     end ++ [card])%list.

Definition create_pricing_strategy (cards : list Card)
  (market_factor : num)
  : Strategy :=
  let strategy_cards := map (card_pricing market_factor) cards in
  let tiers := fold_left add_to_tier strategy_cards [] in
  mkStrategy now market_factor (List.length cards) tiers strategy_cards.
End Pricing.

End BatchOperations.

(** ** [ebay_lister.py]: class [eBayLister] *)

Module eBayLister.

Section Methods.
(** [self.cards] *)
Variable cards : list Card.

(** The first card of the given id, [None] when there is none.  The id
    is compared as text ([str(collx_id)]). *)
Definition find_card_by_id (collx_id_ : string) : option Card :=
  find (fun card => (collx_id card =? collx_id_)%string) cards.

Definition find_cards_by_name (name_ : string) : list Card :=
  let name_lower := Py.lower name_ in
  filter (fun card => Py.str_in name_lower (Py.lower (name card))) cards.
End Methods.

(** The list [title_parts] of [generate_title], before it is joined. *)
Definition title_parts (card : Card) : list string :=
  let title_parts := [] in
  let title_parts :=
    if Py.truthy_int (year card)
    then (title_parts ++ [Py.str_of_int (year card)])%list
    else title_parts in
  let title_parts :=
    if Py.truthy_str (brand card)
    then (title_parts ++ [brand card])%list
    else title_parts in
  let title_parts :=
    if (Py.truthy_str (card_set card)
        && negb (card_set card =? brand card)%string)%bool
    then
      let set_name :=
        Py.strip
          (Py.replace
             (Py.replace (card_set card) (Py.str_of_int (year card)) "")
             (brand card) "") in
      if Py.truthy_str set_name
      then (title_parts ++ [set_name])%list
      else title_parts
    else title_parts in
  let title_parts := (title_parts ++ [name card])%list in
  let title_parts :=
    if Py.truthy_str (number card)
    then (title_parts ++ [("#" ++ number card)%string])%list
    else title_parts in
  let title_parts :=
    if is_rookie card then (title_parts ++ ["RC"])%list else title_parts in
  let title_parts :=
    if Py.truthy_str (team card)
    then (title_parts ++ [team card])%list
    else title_parts in
  title_parts.

Definition generate_title (card : Card) : string :=
  let title := Py.join " " (title_parts card) in
  if Nat.ltb 80 (String.length title)
  then Py.str_slice_to title 77 ++ "..."
  else title.

(** The set literal of [suggest_category]. *)
Definition football_teams : list string :=
  [ "Kansas City Chiefs"; "Houston Texans"; "Minnesota Vikings";
    "New England Patriots"; "Carolina Panthers"; "Los Angeles Rams";
    "New York Giants"; "Baltimore Ravens"; "New York Jets"; "Detroit Lions";
    "Tampa Bay Buccaneers"; "Pittsburgh Steelers"; "Jacksonville Jaguars";
    "Washington Redskins"; "Dallas Cowboys"; "Indianapolis Colts";
    "Green Bay Packers"; "Philadelphia Eagles"; "Miami Dolphins";
    "Buffalo Bills"; "Oakland Raiders"; "Cleveland Browns";
    "Seattle Seahawks"; "Arizona Cardinals"; "Los Angeles Raiders";
    "Phoenix Cardinals"; "San Francisco 49ers"; "Denver Broncos" ].

Definition suggest_category (card : Card) : string :=
  if Py.list_in String.eqb (team card) football_teams
  then
    if is_rookie card
    then "Sports Mem, Cards & Fan Shop > Sports Trading Cards > Football Cards > NFL > Rookie"
    else "Sports Mem, Cards & Fan Shop > Sports Trading Cards > Football Cards > NFL"
  else
    if is_rookie card
    then "Sports Mem, Cards & Fan Shop > Sports Trading Cards > Baseball Cards > MLB > Rookie"
    else "Sports Mem, Cards & Fan Shop > Sports Trading Cards > Baseball Cards > MLB".

End eBayLister.

(** ** [facebook_lister.py]: class [FacebookLister] *)

Module FacebookLister.

Section Methods.
(** [self.cards] *)
Variable cards : list Card.

Definition find_card_by_id (collx_id_ : string) : option Card :=
  find (fun card => (collx_id card =? collx_id_)%string) cards.

Definition find_cards_by_name (name_ : string) : list Card :=
  let name_lower := Py.lower name_ in
  filter (fun card => Py.str_in name_lower (Py.lower (name card))) cards.
End Methods.

(** The list [title_parts] of [generate_marketplace_title]. *)
Definition title_parts (card : Card) : list string :=
  let title_parts := [] in
  let title_parts :=
    if Py.truthy_int (year card)
    then (title_parts ++ [Py.str_of_int (year card)])%list
    else title_parts in
  let title_parts := (title_parts ++ [name card])%list in
  let title_parts :=
    if Py.truthy_str (team card)
    then (title_parts ++ [team card])%list
    else title_parts in
  let title_parts :=
    if Py.truthy_str (brand card)
    then (title_parts ++ [brand card])%list
    else title_parts in
  let title_parts :=
    if is_rookie card
    then (title_parts ++ ["Rookie Card"])%list
    else title_parts in
  title_parts.

Definition generate_marketplace_title (card : Card) : string :=
  let title := Py.join " " (title_parts card) in
  if Nat.ltb 100 (String.length title)
  then Py.str_slice_to title 97 ++ "..."
  else title.

End FacebookLister.

(** ** [analyze_collection.py] *)

Module AnalyzeCollection.

(** The set literal of [analyze_collection]. *)
Definition football_teams : list string :=
  [ "Kansas City Chiefs"; "Houston Texans"; "Minnesota Vikings";
    "New England Patriots"; "Carolina Panthers"; "Los Angeles Rams";
    "New York Giants"; "Baltimore Ravens"; "New York Jets"; "Detroit Lions";
    "Tampa Bay Buccaneers"; "Pittsburgh Steelers"; "Jacksonville Jaguars";
    "Washington Redskins"; "Dallas Cowboys"; "Indianapolis Colts";
    "Green Bay Packers"; "Philadelphia Eagles"; "Miami Dolphins";
    "Buffalo Bills"; "Oakland Raiders"; "Cleveland Browns";
    "Seattle Seahawks"; "Arizona Cardinals"; "Los Angeles Raiders";
    "Phoenix Cardinals"; "San Francisco 49ers"; "Denver Broncos";
    "Cincinnati Bengals"; "Tennessee Titans"; "Atlanta Falcons";
    "Chicago Bears"; "Los Angeles Chargers"; "Las Vegas Raiders" ].

(** [df['team'].isin(football_teams)] on one row. *)
Definition isin_football_teams (team_ : string) : bool :=
  Py.list_in String.eqb team_ football_teams.

(** The row selections [df[df['team'].isin(football_teams)]] and
    [df[~df['team'].isin(football_teams)]]. *)
Definition football_cards (df : list Card) : list Card :=
  filter (fun row => isin_football_teams (team row)) df.

Definition baseball_cards (df : list Card) : list Card :=
  filter (fun row => negb (isin_football_teams (team row))) df.

(** The four row masks of the era breakdown, on the [year] of one row. *)
Definition vintage_90s_mask (y : Z) : bool := y <=? 1999.
Definition early_2000s_mask (y : Z) : bool :=
  ((y >=? 2000) && (y <=? 2009))%bool.
Definition modern_2010s_mask (y : Z) : bool :=
  ((y >=? 2010) && (y <=? 2019))%bool.
Definition recent_2020s_mask (y : Z) : bool := y >=? 2020.

Definition vintage_90s (df : list Card) : list Card :=
  filter (fun row => vintage_90s_mask (year row)) df.
Definition early_2000s (df : list Card) : list Card :=
  filter (fun row => early_2000s_mask (year row)) df.
Definition modern_2010s (df : list Card) : list Card :=
  filter (fun row => modern_2010s_mask (year row)) df.
Definition recent_2020s (df : list Card) : list Card :=
  filter (fun row => recent_2020s_mask (year row)) df.

End AnalyzeCollection.

(** ** [simple_analysis.py] *)

Module SimpleAnalysis.

(** The list [years] of the loop over the rows: the year cell of a row is
    appended when it is non-empty and parses, and skipped otherwise. *)
Definition collect_years (parse_int : string -> option Z)
  (cells : list string) : list Z :=
  flat_map (fun cell =>
              if Py.truthy_str cell
              then match parse_int cell with Some y => [y] | None => [] end
              else [])
           cells.

(** The era counters over the list [years] of the parsed years:
    [sum(1 for year in years if ...)]. *)
Definition count_if (p : Z -> bool) (years : list Z) : nat :=
  List.length (filter p years).

Definition vintage_90s (years : list Z) : nat :=
  count_if (fun year => year <=? 1999) years.
Definition early_2000s (years : list Z) : nat :=
  count_if (fun year => (2000 <=? year) && (year <=? 2009))%bool years.
Definition modern_2010s (years : list Z) : nat :=
  count_if (fun year => (2010 <=? year) && (year <=? 2019))%bool years.
Definition recent_2020s (years : list Z) : nat :=
  count_if (fun year => year >=? 2020) years.

(** [sorted(values)] *)
Definition sorted_values (values : list num) : list num :=
  Py.sort (fun v => v) num_lt false values.

(** [values_sorted[len(values_sorted)//2]], computed under [if values:];
    [None] when [values] is empty and nothing is computed. *)
Definition median_value (values : list num) : option num :=
  match values with
  | [] => None
  | _ :: _ =>
      let values_sorted := sorted_values values in
      nth_error values_sorted (Nat.div (List.length values_sorted) 2)
  end.

(** [max(values)] under the same guard: the first of the greatest
    values. *)
Definition max_value (values : list num) : option num :=
  match values with
  | [] => None
  | v :: rest =>
      Some (fold_left (fun m x => if num_gt x m then x else m) rest v)
  end.

End SimpleAnalysis.

(** ** [visualizations.py] *)

Module Visualizations.

(** The four keys of [era_counts]: the texts [Vintage (<=1999)],
    [Early 2000s], [Modern 2010s] and [Recent 2020+]. *)
Inductive era_key : Type :=
  | Vintage_1999 | Early_2000s | Modern_2010s | Recent_2020_plus.

Definition era_key_eqb (a b : era_key) : bool :=
  match a, b with
  | Vintage_1999, Vintage_1999 | Early_2000s, Early_2000s
  | Modern_2010s, Modern_2010s | Recent_2020_plus, Recent_2020_plus => true
  | _, _ => false
  end.

(** The [if]/[elif] chain of [create_era_breakdown]: the key whose counter
    is incremented for a card of the given year, [None] when no branch is
    taken. *)
Definition era_branch (year_ : Z) : option era_key :=
  if year_ <=? 1999 then Some Vintage_1999
  else if ((2000 <=? year_) && (year_ <=? 2009))%bool then Some Early_2000s
  else if ((2010 <=? year_) && (year_ <=? 2019))%bool then Some Modern_2010s
  else if year_ >=? 2020 then Some Recent_2020_plus
  else None.

(** [era_counts[k] += 1] on a [defaultdict(int)]. *)
Definition increment (era_counts : list (era_key * nat)) (k : era_key)
  : list (era_key * nat) :=
  Py.dict_set era_key_eqb era_counts k
    (match Py.dict_get era_key_eqb era_counts k with
     | Some n => n
     | None => O
     end + 1)%nat.

(** The dictionary [era_counts] when the loop of [create_era_breakdown]
    is over. *)
Definition era_counts (data : list Card) : list (era_key * nat) :=
  fold_left (fun counts card =>
               match era_branch (year card) with
               | Some k => increment counts k
               | None => counts
               end)
            data [].

(** [create_sports_comparison]: the set literal and the two counters. *)
Definition football_teams : list string :=
  [ "Kansas City Chiefs"; "Houston Texans"; "Minnesota Vikings";
    "New England Patriots"; "Carolina Panthers"; "Los Angeles Rams";
    "New York Giants"; "Baltimore Ravens"; "New York Jets"; "Detroit Lions";
    "Tampa Bay Buccaneers"; "Pittsburgh Steelers"; "Jacksonville Jaguars";
    "Washington Redskins"; "Dallas Cowboys"; "Indianapolis Colts";
    "Green Bay Packers"; "Philadelphia Eagles"; "Miami Dolphins";
    "Buffalo Bills"; "Oakland Raiders"; "Cleveland Browns";
    "Seattle Seahawks"; "Arizona Cardinals"; "Los Angeles Raiders";
    "Phoenix Cardinals"; "San Francisco 49ers"; "Denver Broncos" ].

Definition football_count (data : list Card) : nat :=
  List.length
    (filter (fun card => Py.list_in String.eqb (team card) football_teams)
       data).

Definition baseball_count (data : list Card) : nat :=
  (List.length data - football_count data)%nat.

(** [create_value_distribution]: the list [values] of the positive market
    values, and the average drawn as a line, [sum(values)/len(values)].
    The division raises [ZeroDivisionError] on an empty list, which is
    [None] here.  The sum and the quotient are floating-point
    operations. *)
Definition positive_values (data : list Card) : list num :=
  map market_value
    (filter (fun card => num_gt (market_value card) 0) data).

Section Average.
Variable float_sum : list num -> num.
Variable float_div : num -> nat -> num.

Definition average_line (data : list Card) : option num :=
  let values := positive_values data in
  match List.length values with
  | O => None
  | S _ => Some (float_div (float_sum values) (List.length values))
  end.
End Average.

End Visualizations.

(** ** Notions used to state the properties *)

(** A predicate on rows that cannot tell [==] rows apart. *)
Definition respects_eq (p : Card -> bool) : Prop :=
  forall c c', card_eqb c c' = true -> p c = p c'.

(** One criterion of [advanced_search]: when [active], only the rows
    that meet [p] stay. *)
Definition cond_filter (active : bool) (p : Card -> bool)
  (l : list Card) : list Card :=
  if active then filter p l else l.

(** The order in which a sort leaves two neighbours: the second is not
    less than the first. *)
Definition no_descent {A K : Type} (key : A -> K) (ltb : K -> K -> bool)
  (x y : A) : Prop :=
  Py.islt key ltb y x = false.

(** No market value of the list is NaN. *)
Definition all_numbers (cards : list Card) : bool :=
  forallb (fun card => negb (is_nan (market_value card))) cards.

Section Criteria.
Import CardSearcher.

(** The criteria of [kw], each with its activation test, applied in the
    order of the code. *)
Definition criteria_pass (kw : Kwargs) (l : list Card) : list Card :=
  cond_filter (kw_rookie_only kw) is_rookie
 (cond_filter (Py.truthy_ostr (kw_condition kw))
    (fun card =>
       (Py.truthy_str (condition card)
        && Py.str_in (Py.lower (get_str (kw_condition kw)))
             (Py.lower (condition card)))%bool)
 (cond_filter (Py.truthy_onum (kw_min_value kw)
               || Py.truthy_onum (kw_max_value kw))%bool
    (value_keeps (kw_min_value kw) (kw_max_value kw))
 (cond_filter (Py.truthy_ostr (kw_brand kw))
    (fun card => Py.str_in (Py.lower (get_str (kw_brand kw)))
                   (Py.lower (brand card)))
 (cond_filter (Py.truthy_oint (kw_year_min kw)
               || Py.truthy_oint (kw_year_max kw))%bool
    (year_keeps None (kw_year_min kw) (kw_year_max kw))
 (cond_filter (Py.truthy_oint (kw_year kw))
    (year_keeps (kw_year kw) None None)
 (cond_filter (Py.truthy_ostr (kw_team kw))
    (fun card => Py.str_in (Py.lower (get_str (kw_team kw)))
                   (Py.lower (team card)))
 (cond_filter (Py.truthy_ostr (kw_name kw))
    (fun card =>
       let card_name := Py.lower (name card) in
       if kw_exact_name kw
       then (card_name =? Py.lower (get_str (kw_name kw)))%string
       else Py.str_in (Py.lower (get_str (kw_name kw))) card_name)
    l))))))).

End Criteria.

(** A row with the four fields that the sale selection reads set to the
    given values, and every other field taken from [rest]. *)
Definition sale_card (rest : Card) (y : Z) (value : num)
  (condition_ flags_ : string) : Card :=
  mkCard (collx_id rest) (name rest) (team rest) y (brand rest)
    (card_set rest) (number rest) condition_ flags_ value
    (front_image rest) (back_image rest) (added rest).

(** The three cards of the end-to-end example of the specification. *)
Definition card_A (rest : Card) : Card := sale_card rest 1985 60 "Mint" "".
Definition card_B (rest : Card) : Card :=
  sale_card rest 2015 30 "Excellent" "RC".
Definition card_C (rest : Card) : Card :=
  sale_card rest 2021 15 "Near Mint" "".

(** A row whose text fields are all empty. *)
Definition blank_card : Card :=
  mkCard "" "" "" 0 "" "" "" "" "" 0 "" "" "".

(** [year_min <= card.year <= year_max], a bound that is absent or zero
    imposing nothing. *)
Definition within_range (year_min year_max : option Z) (card : Card) : bool :=
  (match year_min with
   | Some m => (m =? 0) || (m <=? year card)
   | None => true
   end
   && match year_max with
      | Some m => (m =? 0) || (year card <=? m)
      | None => true
      end)%bool.

(** The keyword arguments [kw] without [year_min] and [year_max]. *)
Definition drop_year_range (kw : CardSearcher.Kwargs) : CardSearcher.Kwargs :=
  CardSearcher.mkKwargs
    (CardSearcher.kw_name kw) (CardSearcher.kw_exact_name kw)
    (CardSearcher.kw_team kw) (CardSearcher.kw_year kw) None None
    (CardSearcher.kw_brand kw) (CardSearcher.kw_min_value kw)
    (CardSearcher.kw_max_value kw) (CardSearcher.kw_condition kw)
    (CardSearcher.kw_rookie_only kw).

(** The four era buckets, each with the row mask that the analysis uses
    for it. *)
Inductive Era : Type := Vintage | Early2000s | Modern2010s | Recent2020s.

Definition era_mask (e : Era) (y : Z) : bool :=
  match e with
  | Vintage => AnalyzeCollection.vintage_90s_mask y
  | Early2000s => AnalyzeCollection.early_2000s_mask y
  | Modern2010s => AnalyzeCollection.modern_2010s_mask y
  | Recent2020s => AnalyzeCollection.recent_2020s_mask y
  end.

(** The criteria [team="Cowboys", min_value=10]. *)
Definition cowboys_min_10 : CardSearcher.Kwargs :=
  CardSearcher.mkKwargs None false (Some "Cowboys") None None None None
    (Some (Fin 10)) None None false.

(** The row of the year 2000 and the two calls that differ on it. *)
Definition card_2000 : Card :=
  mkCard "1" "Tom Brady" "New England Patriots" 2000 "Topps" "" "" "Mint"
    "RC" 40 "" "" "".
Definition year_2000_and_2010s : CardSearcher.Kwargs :=
  CardSearcher.mkKwargs None false None (Some 2000) (Some 2010) (Some 2019)
    None None None None false.
Definition year_2000_only : CardSearcher.Kwargs :=
  CardSearcher.mkKwargs None false None (Some 2000) None None None None None
    None false.

(** Two cards of the value 30 between a dearer and a cheaper one. *)
Definition tie_first : Card := sale_card blank_card 2015 30 "Mint" "first".
Definition tie_second : Card := sale_card blank_card 2016 30 "Mint" "second".
Definition dear : Card := sale_card blank_card 2017 75 "Mint" "".
Definition cheap : Card := sale_card blank_card 2018 5 "Mint" "".

(** A criterion as a test on one row: it is passed when the criterion is
    not active or the row meets [p]. *)
Definition criterion (active : bool) (p : Card -> bool) (card : Card)
  : bool :=
  (negb active || p card)%bool.

Section CriteriaMatch.
Import CardSearcher.

(** The row [card] passes every active criterion of [kw]. *)
Definition criteria_match (kw : Kwargs) (card : Card) : bool :=
  (criterion (Py.truthy_ostr (kw_name kw))
     (fun card =>
        let card_name := Py.lower (name card) in
        if kw_exact_name kw
        then (card_name =? Py.lower (get_str (kw_name kw)))%string
        else Py.str_in (Py.lower (get_str (kw_name kw))) card_name) card
   && criterion (Py.truthy_ostr (kw_team kw))
        (fun card => Py.str_in (Py.lower (get_str (kw_team kw)))
                       (Py.lower (team card))) card
   && criterion (Py.truthy_oint (kw_year kw))
        (year_keeps (kw_year kw) None None) card
   && criterion (Py.truthy_oint (kw_year_min kw)
                 || Py.truthy_oint (kw_year_max kw))
        (year_keeps None (kw_year_min kw) (kw_year_max kw)) card
   && criterion (Py.truthy_ostr (kw_brand kw))
        (fun card => Py.str_in (Py.lower (get_str (kw_brand kw)))
                       (Py.lower (brand card))) card
   && criterion (Py.truthy_onum (kw_min_value kw)
                 || Py.truthy_onum (kw_max_value kw))
        (value_keeps (kw_min_value kw) (kw_max_value kw)) card
   && criterion (Py.truthy_ostr (kw_condition kw))
        (fun card =>
           Py.truthy_str (condition card)
           && Py.str_in (Py.lower (get_str (kw_condition kw)))
                (Py.lower (condition card))) card
   && criterion (kw_rookie_only kw) is_rookie card)%bool.

(** Every value of [kw] is falsy: [None], an empty text, a zero or
    [False]. *)
Definition all_falsy (kw : Kwargs) : bool :=
  (negb (Py.truthy_ostr (kw_name kw))
   && negb (Py.truthy_ostr (kw_team kw))
   && negb (Py.truthy_oint (kw_year kw))
   && negb (Py.truthy_oint (kw_year_min kw))
   && negb (Py.truthy_oint (kw_year_max kw))
   && negb (Py.truthy_ostr (kw_brand kw))
   && negb (Py.truthy_onum (kw_min_value kw))
   && negb (Py.truthy_onum (kw_max_value kw))
   && negb (Py.truthy_ostr (kw_condition kw))
   && negb (kw_rookie_only kw))%bool.

End CriteriaMatch.

(** Keyword arguments whose values are all present and all falsy. *)
Definition falsy_kwargs : CardSearcher.Kwargs :=
  CardSearcher.mkKwargs (Some "") false (Some "") (Some 0) (Some 0) (Some 0)
    (Some "") (Some (Fin 0)) (Some (Fin 0)) (Some "") false.

(** An optional argument that was passed, whatever its value. *)
Definition is_given {A : Type} (o : option A) : bool :=
  match o with Some _ => true | None => false end.

(** The order of a sort in the given direction. *)
Definition directed {A : Type} (descending : bool) (R : A -> A -> Prop)
  (x y : A) : Prop :=
  if descending then R y x else R x y.

(** Two cards whose names differ in case only, and a third one. *)
Definition name_upper : Card :=
  mkCard "10" "TOM BRADY" "" 2000 "" "" "" "" "" 1 "" "" "".
Definition name_lower : Card :=
  mkCard "11" "tom brady" "" 2001 "" "" "" "" "" 2 "" "" "".
Definition name_other : Card :=
  mkCard "12" "Dan Marino" "" 1984 "" "" "" "" "" 3 "" "" "".

(** The counter of [simple_analysis.py] for the era of a key of the chart
    of [visualizations.py]. *)
Definition era_counter (k : Visualizations.era_key) (years : list Z) : nat :=
  match k with
  | Visualizations.Vintage_1999 => SimpleAnalysis.vintage_90s years
  | Visualizations.Early_2000s => SimpleAnalysis.early_2000s years
  | Visualizations.Modern_2010s => SimpleAnalysis.modern_2010s years
  | Visualizations.Recent_2020_plus => SimpleAnalysis.recent_2020s years
  end.

(** The value of [era_counts[k]], 0 for a key that is absent. *)
Definition counted (counts : list (Visualizations.era_key * nat))
  (k : Visualizations.era_key) : nat :=
  match Py.dict_get Visualizations.era_key_eqb counts k with
  | Some n => n
  | None => O
  end.

(** A Cowboys card whose market value was read as NaN. *)
Definition nan_cowboy : Card :=
  mkCard "20" "Troy Aikman" "Dallas Cowboys" 1992 "Topps" "" "" "Mint" ""
    NaN "" "" "".

(** Seven cards, one of the value NaN, with two cards of the value 2 after
    it. *)
Definition valued (id : string) (value : num) : Card :=
  mkCard id "" "" 0 "" "" "" "" "" value "" "" "".
Definition nan_tie_first : Card := valued "first" 2.
Definition nan_tie_second : Card := valued "second" 2.
Definition nan_sequence : list Card :=
  [ valued "z" 0; valued "o" 1; valued "s" 7; valued "NAN" NaN;
    nan_tie_first; valued "h" (1 # 2); nan_tie_second ].

(** The six franchises that only the set of [analyze_collection] lists. *)
Definition extra_football_teams : list string :=
  [ "Cincinnati Bengals"; "Tennessee Titans"; "Atlanta Falcons";
    "Chicago Bears"; "Los Angeles Chargers"; "Las Vegas Raiders" ].

(** * Properties *)

(** ** The order of the numbers *)

Lemma Qle_bool_cases (x y : Q) :
  (Qle_bool x y = true /\ (x <= y)%Q) \/ (Qle_bool x y = false /\ (y < x)%Q).
Proof.
  destruct (Qle_bool x y) eqn:E.
  - left. split; [reflexivity | now apply Qle_bool_iff].
  - right. split; [reflexivity|]. apply Qnot_le_lt. intros H.
    apply Qle_bool_iff in H. congruence.
Qed.

Lemma Qeq_bool_cases (x y : Q) :
  (Qeq_bool x y = true /\ (x == y)%Q) \/ (Qeq_bool x y = false /\ ~ (x == y)%Q).
Proof.
  destruct (Qeq_bool x y) eqn:E.
  - left. split; [reflexivity | now apply Qeq_bool_iff].
  - right. split; [reflexivity|]. intros H. apply Qeq_bool_iff in H.
    congruence.
Qed.

Ltac q_cases :=
  repeat match goal with
         | H : context [Qle_bool ?x ?y] |- _ =>
             let E := fresh "E" in
             destruct (Qle_bool_cases x y) as [[E ?]|[E ?]];
             rewrite E in *; clear E
         | |- context [Qle_bool ?x ?y] =>
             let E := fresh "E" in
             destruct (Qle_bool_cases x y) as [[E ?]|[E ?]];
             rewrite E in *; clear E
         | H : context [Qeq_bool ?x ?y] |- _ =>
             let E := fresh "E" in
             destruct (Qeq_bool_cases x y) as [[E ?]|[E ?]];
             rewrite E in *; clear E
         | |- context [Qeq_bool ?x ?y] =>
             let E := fresh "E" in
             destruct (Qeq_bool_cases x y) as [[E ?]|[E ?]];
             rewrite E in *; clear E
         end.

Ltac num_solve :=
  cbn in *; q_cases; cbn in *;
  try discriminate; try reflexivity; try tauto; try (exfalso; lra).

Section NumFacts.

Lemma num_lt_asym (a b : num) : num_lt a b = true -> num_lt b a = false.
Proof. destruct a, b; num_solve. Qed.

Lemma num_lt_trans (a b c : num) :
  num_lt a b = true -> num_lt b c = true -> num_lt a c = true.
Proof. destruct a, b, c; num_solve. Qed.

(** Among numbers that are not NaN, "not less" is transitive. *)
Lemma num_ge_trans (a b c : num) :
  is_nan b = false ->
  num_lt a b = false -> num_lt b c = false -> num_lt a c = false.
Proof. destruct a, b, c; num_solve. Qed.

Lemma num_not_lt_le (a b : num) :
  is_nan a = false -> is_nan b = false ->
  num_lt a b = false <-> num_le b a = true.
Proof. destruct a, b; split; num_solve. Qed.

Lemma num_le_not_nan (a b : num) :
  num_le a b = true -> is_nan a = false /\ is_nan b = false.
Proof. destruct a, b; num_solve. Qed.

Lemma num_le_lt_false (a b : num) : num_le a b = true -> num_lt b a = false.
Proof. destruct a, b; num_solve. Qed.

Lemma num_le_trans (a b c : num) :
  num_le a b = true -> num_le b c = true -> num_le a c = true.
Proof. destruct a, b, c; num_solve; apply Qle_bool_iff; lra. Qed.

Lemma num_lt_le_trans (a b c : num) :
  num_lt a b = true -> num_le b c = true -> num_lt a c = true.
Proof. destruct a, b, c; num_solve. Qed.

Lemma num_same_refl (a : num) : num_same a a = true.
Proof. destruct a; num_solve. Qed.

Lemma num_eq_same (a b : num) : num_eq a b = true -> num_same a b = true.
Proof. destruct a, b; num_solve. Qed.

Lemma num_eq_not_nan (a b : num) :
  num_eq a b = true -> is_nan a = false /\ is_nan b = false.
Proof. destruct a, b; num_solve. Qed.

Lemma num_same_sym (a b : num) : num_same a b = true -> num_same b a = true.
Proof. destruct a, b; num_solve. Qed.

Lemma num_same_trans (a b c : num) :
  num_same a b = true -> num_same b c = true -> num_same a c = true.
Proof. destruct a, b, c; num_solve; apply Qeq_bool_iff; lra. Qed.

Lemma num_lt_same_l (a a' b : num) :
  num_same a a' = true -> num_lt a b = num_lt a' b.
Proof. destruct a, a', b; num_solve. Qed.

Lemma num_lt_same_r (a a' b : num) :
  num_same a a' = true -> num_lt b a = num_lt b a'.
Proof. destruct a, a', b; num_solve. Qed.

Lemma num_le_same_r (a a' b : num) :
  num_same a a' = true -> num_le b a = num_le b a'.
Proof. destruct a, a', b; num_solve. Qed.

Lemma num_same_not_lt (a b : num) : num_same a b = true -> num_lt a b = false.
Proof. destruct a, b; num_solve. Qed.

Lemma num_same_is_nan (a b : num) :
  num_same a b = true -> is_nan a = is_nan b.
Proof. destruct a, b; num_solve. Qed.

End NumFacts.

(** ** The built-ins behave as Python's *)

Section StringFacts.

Lemma prefix_iff_append (s t : string) :
  String.prefix s t = true <-> exists b, t = (s ++ b)%string.
Proof.
  revert t; induction s as [|a s IH]; intros t.
  - split; [intros _; now exists t | intros _; now destruct t].
  - destruct t as [|c t]; simpl.
    + split; [discriminate | intros [b Hb]; discriminate].
    + destruct (Ascii.ascii_dec a c) as [->|Hne].
      * rewrite IH. split; intros [b Hb]; exists b; congruence.
      * split; [discriminate | intros [b Hb]; congruence].
Qed.

(** [needle in hay] holds exactly when [hay] can be cut around an
    occurrence of [needle]. *)
Lemma str_in_iff (needle hay : string) :
  Py.str_in needle hay = true
  <-> exists a b, hay = (a ++ needle ++ b)%string.
Proof.
  induction hay as [|c hay IH].
  - cbn [Py.str_in]. rewrite orb_false_r, prefix_iff_append. split.
    + intros [b Hb]. now exists ""%string, b.
    + intros [a [b Hab]]. destruct a as [|x a]; [now exists b | discriminate].
  - cbn [Py.str_in]. rewrite orb_true_iff, prefix_iff_append, IH. split.
    + intros [[b Hb] | [a [b Hab]]].
      * now exists ""%string, b.
      * exists (String c a), b. simpl. now rewrite Hab.
    + intros [a [b Hab]]. destruct a as [|x a].
      * left. now exists b.
      * right. simpl in Hab. injection Hab as _ Hab. now exists a, b.
Qed.

Lemma lower_length (s : string) :
  String.length (Py.lower s) = String.length s.
Proof. induction s; simpl; congruence. Qed.

Lemma lower_ascii_idem (a : ascii) :
  Py.lower_ascii (Py.lower_ascii a) = Py.lower_ascii a.
Proof.
  destruct a as [[] [] [] [] [] [] [] []]; reflexivity.
Qed.

Lemma lower_idem (s : string) : Py.lower (Py.lower s) = Py.lower s.
Proof.
  induction s; simpl; [reflexivity|].
  now rewrite lower_ascii_idem, IHs.
Qed.

End StringFacts.

(** ** Equality of rows and the membership filter *)

Section CardEquality.

Lemma card_eqb_refl (c : Card) : card_eqb c c = true.
Proof.
  unfold card_eqb.
  now rewrite !String.eqb_refl, Z.eqb_refl, num_same_refl.
Qed.

Lemma card_eqb_fields (c c' : Card) :
  card_eqb c c' = true ->
  name c = name c' /\ team c = team c' /\ year c = year c'
  /\ brand c = brand c' /\ condition c = condition c'
  /\ flags c = flags c'
  /\ num_same (market_value c) (market_value c') = true.
Proof.
  unfold card_eqb. rewrite !andb_true_iff.
  rewrite !String.eqb_eq, Z.eqb_eq. tauto.
Qed.

Lemma card_in_true_iff (c : Card) (l : list Card) :
  card_in c l = true <-> exists c', In c' l /\ card_eqb c c' = true.
Proof. unfold card_in, Py.list_in. apply existsb_exists. Qed.

(** On rows taken from [cards], keeping those that are [in] the outcome
    of a search is the same as testing the search's own condition. *)
Lemma keep_in_filter (cards results : list Card) (p : Card -> bool) :
  respects_eq p ->
  incl results cards ->
  CardSearcher.keep_in results (filter p cards) = filter p results.
Proof.
  intros Hp Hincl. unfold CardSearcher.keep_in.
  apply filter_ext_in. intros c Hc.
  destruct (p c) eqn:Epc.
  - apply card_in_true_iff. exists c. split.
    + apply filter_In. split; [now apply Hincl | exact Epc].
    + apply card_eqb_refl.
  - destruct (card_in c (filter p cards)) eqn:Ein; [|reflexivity].
    apply card_in_true_iff in Ein. destruct Ein as [c' [Hin Heq]].
    apply filter_In in Hin. rewrite (Hp _ _ Heq) in Epc.
    destruct Hin as [_ Hin]. congruence.
Qed.

End CardEquality.

(** ** [advanced_search] as one pass over the collection *)

Section AdvancedSearch.
Import CardSearcher.

Lemma cond_filter_incl active p l cards :
  incl l cards -> incl (cond_filter active p l) cards.
Proof.
  intros H. destruct active; simpl; [|exact H].
  intros c Hc. apply filter_In in Hc. now apply H.
Qed.

Lemma filter_comm {A} (p q : A -> bool) (l : list A) :
  filter p (filter q l) = filter q (filter p l).
Proof.
  induction l as [|x l IH]; simpl; [reflexivity|].
  destruct (q x) eqn:Eq, (p x) eqn:Ep; simpl; rewrite ?Eq, ?Ep, IH;
    reflexivity.
Qed.

Lemma filter_andb {A} (p q : A -> bool) (l : list A) :
  filter q (filter p l) = filter (fun x => p x && q x)%bool l.
Proof.
  induction l as [|x l IH]; simpl; [reflexivity|].
  destruct (p x); simpl; [destruct (q x)|]; now rewrite IH.
Qed.

Lemma cond_filter_comm a p b q (l : list Card) :
  cond_filter a p (cond_filter b q l) = cond_filter b q (cond_filter a p l).
Proof. destruct a, b; simpl; auto using filter_comm. Qed.

(** The conditions of the single searches cannot tell [==] rows apart. *)
Lemma respects_name (n : string) (e : bool) :
  respects_eq (fun card =>
    let card_name := Py.lower (name card) in
    if e then (card_name =? Py.lower n)%string
    else Py.str_in (Py.lower n) card_name).
Proof.
  intros c c' H. apply card_eqb_fields in H.
  now replace (name c') with (name c) by tauto.
Qed.

Lemma respects_team t :
  respects_eq (fun card => Py.str_in (Py.lower t) (Py.lower (team card))).
Proof.
  intros c c' H. apply card_eqb_fields in H.
  now replace (team c') with (team c) by tauto.
Qed.

Lemma respects_year y a b : respects_eq (year_keeps y a b).
Proof.
  intros c c' H. apply card_eqb_fields in H. unfold year_keeps.
  now replace (year c') with (year c) by tauto.
Qed.

Lemma respects_brand t :
  respects_eq (fun card => Py.str_in (Py.lower t) (Py.lower (brand card))).
Proof.
  intros c c' H. apply card_eqb_fields in H.
  now replace (brand c') with (brand c) by tauto.
Qed.

Lemma respects_value a b : respects_eq (value_keeps a b).
Proof.
  intros c c' H. apply card_eqb_fields in H.
  assert (Hv : num_same (market_value c) (market_value c') = true) by tauto.
  unfold value_keeps, num_gt. cbv zeta.
  destruct a as [m|], b as [m'|];
    rewrite ?(num_lt_same_l _ _ m Hv), ?(num_lt_same_r _ _ m' Hv);
    reflexivity.
Qed.

Lemma respects_condition t :
  respects_eq (fun card =>
    (Py.truthy_str (condition card)
     && Py.str_in (Py.lower t) (Py.lower (condition card)))%bool).
Proof.
  intros c c' H. apply card_eqb_fields in H.
  now replace (condition c') with (condition c) by tauto.
Qed.

Lemma respects_rookie : respects_eq is_rookie.
Proof.
  intros c c' H. apply card_eqb_fields in H. unfold is_rookie.
  now replace (flags c') with (flags c) by tauto.
Qed.

Variable cards : list Card.

Lemma keep_in_step (active : bool) p results :
  respects_eq p -> incl results cards ->
  (if active then keep_in results (filter p cards) else results)
  = cond_filter active p results.
Proof.
  intros Hp Hi. destruct active; simpl; [|reflexivity].
  now apply keep_in_filter.
Qed.

(** The repeated "search, then keep the rows found in both lists" of
    [advanced_search] amounts to filtering the collection by every active
    criterion. *)
Lemma advanced_search_pass (kw : Kwargs) :
  advanced_search cards kw = criteria_pass kw cards.
Proof.
  unfold advanced_search, criteria_pass.
  unfold search_by_name, search_by_team, search_by_year, search_by_brand,
    search_by_value, search_by_condition, search_rookie_cards.
  cbv zeta.
  rewrite (keep_in_step (Py.truthy_ostr (kw_name kw)) _ cards
             (respects_name _ _) (incl_refl _)).
  repeat match goal with
  | |- context [if ?b then keep_in ?r (filter ?p cards) else ?r] =>
      rewrite (keep_in_step b p r);
      [ | first [ apply respects_team | apply respects_year
                | apply respects_brand | apply respects_value
                | apply respects_condition | apply respects_rookie ]
        | repeat apply cond_filter_incl; apply incl_refl ]
  end.
  reflexivity.
Qed.

End AdvancedSearch.

(** ** The sort of [list.sort] *)

Section SortFacts.
Local Open Scope list_scope.
Context {A K : Type}.
Variable key : A -> K.
Variable ltb : K -> K -> bool.

(** Where the binary search ends: the element before the place found, if
    any, was probed and was not above [pivot]; the element at the place, if
    any, was probed and was above it. *)
Lemma bisect_spec (fuel : nat) (pivot : A) (a : list A) (l r : nat) :
  (l <= r <= List.length a)%nat -> (r - l <= fuel)%nat ->
  let n := Py.bisect key ltb fuel pivot a l r in
  (l <= n <= r)%nat
  /\ (n = l \/ exists x, nth_error a (n - 1) = Some x
                        /\ Py.islt key ltb pivot x = false)
  /\ (n = r \/ exists x, nth_error a n = Some x
                        /\ Py.islt key ltb pivot x = true).
Proof.
  cbv zeta. revert l r.
  induction fuel as [|fuel IH]; intros l r Hlr Hfuel; cbn [Py.bisect].
  - assert (l = r) by lia. subst. repeat split; auto; lia.
  - destruct (Nat.ltb_spec l r) as [Hlt|Hge].
    + set (p := (l + (r - l) / 2)%nat).
      assert (Hp : (l <= p < r)%nat).
      { unfold p. split; [lia|].
        assert ((r - l) / 2 < r - l)%nat by (apply Nat.div_lt; lia). lia. }
      destruct (nth_error a p) as [x|] eqn:Ex;
        [|apply nth_error_None in Ex; lia].
      destruct (Py.islt key ltb pivot x) eqn:Elt.
      * destruct (IH l p) as [Hb [Hl Hr]]; [lia | lia |].
        split; [lia|]. split; [exact Hl|].
        destruct Hr as [->|Hr]; [right; eauto | now right].
      * destruct (IH (p + 1)%nat r) as [Hb [Hl Hr]]; [lia | lia |].
        split; [lia|]. split; [|exact Hr].
        destruct Hl as [->|Hl]; [|now right].
        right. exists x. split; [|exact Elt].
        now replace (p + 1 - 1)%nat with p by lia.
    + assert (l = r) by lia. subst. repeat split; auto; lia.
Qed.

Lemma binary_insert_perm (sorted : list A) (pivot : A) :
  Permutation (Py.binary_insert key ltb sorted pivot) (sorted ++ [pivot])%list.
Proof.
  unfold Py.binary_insert. cbv zeta.
  set (n := Py.bisect _ _ _ _ _ _ _).
  apply Permutation_trans
    with ((firstn n sorted ++ skipn n sorted) ++ [pivot]).
  - rewrite <- app_assoc. apply Permutation_app_head.
    change (pivot :: skipn n sorted) with ([pivot] ++ skipn n sorted).
    apply Permutation_app_comm.
  - now rewrite firstn_skipn.
Qed.

Lemma fold_binary_insert_perm (rest run : list A) :
  Permutation (fold_left (Py.binary_insert key ltb) rest run) (run ++ rest)%list.
Proof.
  revert run. induction rest as [|x rest IH]; intros run; cbn [fold_left].
  - now rewrite app_nil_r.
  - rewrite IH, binary_insert_perm, <- app_assoc. reflexivity.
Qed.

Lemma sort_forward_perm (l : list A) :
  Permutation (Py.sort_forward key ltb l) l.
Proof.
  unfold Py.sort_forward.
  destruct l as [|x [|y l]]; try reflexivity.
  destruct (Py.count_run key ltb (x :: y :: l)) as [n descending].
  rewrite fold_binary_insert_perm.
  apply Permutation_trans
    with (firstn n (x :: y :: l) ++ skipn n (x :: y :: l));
    [|now rewrite firstn_skipn].
  apply Permutation_app_tail.
  destruct descending; [symmetry; apply Permutation_rev | reflexivity].
Qed.

Lemma sort_perm (reverse : bool) (l : list A) :
  Permutation (Py.sort key ltb reverse l) l.
Proof.
  destruct reverse; cbn [Py.sort]; [|apply sort_forward_perm].
  rewrite <- Permutation_rev, sort_forward_perm.
  symmetry. apply Permutation_rev.
Qed.

Lemma Sorted_insert (R : A -> A -> Prop) (s : list A) (p : A) (n : nat) :
  Sorted R s ->
  (n <= List.length s)%nat ->
  (n = O \/ exists x, nth_error s (n - 1) = Some x /\ R x p) ->
  (n = List.length s \/ exists x, nth_error s n = Some x /\ R p x) ->
  Sorted R (firstn n s ++ p :: skipn n s).
Proof.
  intros Hs. revert n. induction Hs as [|a s Hs IH Hhd]; intros n Hn Hl Hr.
  - destruct n; [|cbn in Hn; lia]. cbn. repeat constructor.
  - destruct n as [|n].
    + cbn [firstn skipn app]. constructor; [now constructor|].
      destruct Hr as [Hr|[x [Hx Hpx]]]; [discriminate|].
      cbn in Hx. injection Hx as <-. now constructor.
    + assert (Hl' : exists x, nth_error (a :: s) n = Some x /\ R x p).
      { destruct Hl as [Hl|[x [Hx Hxp]]]; [discriminate|].
        replace (S n - 1)%nat with n in Hx by lia. now exists x. }
      destruct Hl' as [x [Hx Hxp]].
      cbn [firstn skipn app]. constructor.
      * apply IH.
        -- cbn in Hn. lia.
        -- destruct n as [|n]; [now left|]. right. exists x.
           replace (S n - 1)%nat with n by lia. now cbn in Hx.
        -- destruct Hr as [Hr|[z [Hz Hpz]]].
           ++ left. cbn in Hr. lia.
           ++ right. exists z. now cbn in Hz.
      * destruct n as [|n].
        -- cbn [firstn app]. constructor.
           cbn in Hx. now injection Hx as <-.
        -- destruct s as [|b s]; [cbn in Hn; lia|].
           cbn [firstn app]. constructor. now inversion Hhd.
Qed.

Hypothesis asym :
  forall x y, Py.islt key ltb x y = true -> Py.islt key ltb y x = false.

Lemma binary_insert_no_descent (sorted : list A) (pivot : A) :
  Sorted (no_descent key ltb) sorted ->
  Sorted (no_descent key ltb) (Py.binary_insert key ltb sorted pivot).
Proof.
  intros Hs. unfold Py.binary_insert. cbv zeta.
  destruct (bisect_spec (List.length sorted) pivot sorted 0 (List.length sorted))
    as [Hb [Hl Hr]]; [lia | lia |].
  apply Sorted_insert; [exact Hs | lia | |].
  - destruct Hl as [Hl|[x [Hx Hlt]]]; [now left|]. right. now exists x.
  - destruct Hr as [Hr|[x [Hx Hlt]]]; [now left|]. right. exists x.
    split; [exact Hx|]. now apply asym.
Qed.

Lemma fold_binary_insert_no_descent (rest run : list A) :
  Sorted (no_descent key ltb) run ->
  Sorted (no_descent key ltb) (fold_left (Py.binary_insert key ltb) rest run).
Proof.
  revert run. induction rest as [|x rest IH]; intros run Hrun; [exact Hrun|].
  cbn [fold_left]. now apply IH, binary_insert_no_descent.
Qed.

Lemma run_ascending_sorted (prev : A) (l : list A) :
  Sorted (no_descent key ltb) (prev :: firstn (Py.run_ascending key ltb prev l) l).
Proof.
  revert prev. induction l as [|x l IH]; intros prev; cbn [Py.run_ascending].
  - repeat constructor.
  - destruct (Py.islt key ltb x prev) eqn:E; cbn [firstn].
    + repeat constructor.
    + constructor; [apply IH | now constructor].
Qed.

Lemma run_descending_sorted (prev : A) (l : list A) :
  Sorted (fun x y => Py.islt key ltb y x = true)
    (prev :: firstn (Py.run_descending key ltb prev l) l).
Proof.
  revert prev. induction l as [|x l IH]; intros prev; cbn [Py.run_descending].
  - repeat constructor.
  - destruct (Py.islt key ltb x prev) eqn:E; cbn [firstn].
    + constructor; [apply IH | now constructor].
    + repeat constructor.
Qed.

Lemma Sorted_snoc (R : A -> A -> Prop) (l : list A) (y : A) :
  Sorted R l -> (forall l' z, l = (l' ++ [z])%list -> R z y) ->
  Sorted R (l ++ [y])%list.
Proof.
  induction 1 as [|a l Hs IH Hhd]; intros Hl; simpl.
  - repeat constructor.
  - constructor.
    + apply IH. intros l' z E. apply (Hl (a :: l') z). simpl. now rewrite E.
    + destruct l as [|b l]; simpl.
      * constructor. now apply (Hl [] a).
      * constructor. now inversion Hhd.
Qed.

Lemma Sorted_rev (R : A -> A -> Prop) (l : list A) :
  Sorted R l -> Sorted (fun x y => R y x) (rev l).
Proof.
  induction 1 as [|y s Hs IH Hhd]; simpl; [constructor|].
  apply Sorted_snoc; [exact IH|].
  intros l' z E. apply (f_equal (@rev A)) in E.
  rewrite rev_involutive, rev_app_distr in E. simpl in E. subst s.
  now inversion Hhd.
Qed.

Lemma Sorted_weaken (R R' : A -> A -> Prop) (l : list A) :
  (forall x y, R x y -> R' x y) -> Sorted R l -> Sorted R' l.
Proof.
  intros HR. induction 1 as [|a l _ IH Hhd]; constructor; [exact IH|].
  destruct Hhd; constructor. now apply HR.
Qed.

(** The first run, as the sort prepares it. *)
Lemma first_run_no_descent (l : list A) :
  let (n, descending) := Py.count_run key ltb l in
  Sorted (no_descent key ltb) (if descending then rev (firstn n l) else firstn n l).
Proof.
  destruct l as [|x [|y l]]; cbn [Py.count_run].
  - constructor.
  - repeat constructor.
  - destruct (Py.islt key ltb y x) eqn:E.
    + change (firstn (2 + Py.run_descending key ltb y l) (x :: y :: l))
        with (x :: y :: firstn (Py.run_descending key ltb y l) l).
      eapply Sorted_weaken; [|apply Sorted_rev].
      * intros a b H. apply asym. exact H.
      * constructor; [apply run_descending_sorted | now constructor].
    + change (firstn (2 + Py.run_ascending key ltb y l) (x :: y :: l))
        with (x :: y :: firstn (Py.run_ascending key ltb y l) l).
      constructor; [apply run_ascending_sorted | now constructor].
Qed.

(** Whatever the keys, a sorted list has no descent. *)
Lemma sort_forward_no_descent (l : list A) :
  Sorted (no_descent key ltb) (Py.sort_forward key ltb l).
Proof.
  unfold Py.sort_forward.
  destruct l as [|x [|y l]]; [constructor | repeat constructor |].
  pose proof (first_run_no_descent (x :: y :: l)) as Hrun.
  destruct (Py.count_run key ltb (x :: y :: l)) as [n descending].
  now apply fold_binary_insert_no_descent.
Qed.




End SortFacts.

Section Stability.
Local Open Scope list_scope.
Context {A K : Type}.
Variable key : A -> K.
Variable ltb : K -> K -> bool.

(** The elements whose keys [<] orders: on them it is asymmetric and
    transitive, and so is "not less". *)
Variable dom : A -> Prop.
Hypothesis asym :
  forall x y, Py.islt key ltb x y = true -> Py.islt key ltb y x = false.
Hypothesis lt_trans :
  forall x y z, dom x -> dom y -> dom z ->
    Py.islt key ltb x y = true -> Py.islt key ltb y z = true ->
    Py.islt key ltb x z = true.
Hypothesis ge_trans :
  forall x y z, dom x -> dom y -> dom z ->
    Py.islt key ltb x y = false -> Py.islt key ltb y z = false ->
    Py.islt key ltb x z = false.

Lemma Sorted_strongly (R : A -> A -> Prop) (l : list A) :
  (forall x y z, dom x -> dom y -> dom z -> R x y -> R y z -> R x z) ->
  Forall dom l -> Sorted R l -> StronglySorted R l.
Proof.
  intros Htrans Hdom Hs. induction Hs as [|a l Hs IH Hhd]; [constructor|].
  inversion Hdom as [|? ? Ha Hl]; subst.
  specialize (IH Hl). constructor; [exact IH|].
  destruct Hhd as [|b l Hab]; [constructor|].
  constructor; [exact Hab|].
  apply StronglySorted_inv in IH. destruct IH as [_ Hall].
  inversion Hl as [|? ? Hb Hl']; subst.
  rewrite Forall_forall in *. intros z Hz.
  apply (Htrans a b z); auto.
Qed.

Lemma no_descent_strongly (l : list A) :
  Forall dom l -> Sorted (no_descent key ltb) l ->
  StronglySorted (no_descent key ltb) l.
Proof.
  apply Sorted_strongly. unfold no_descent.
  intros x y z Hx Hy Hz Hxy Hyz. now apply (ge_trans z y x).
Qed.

(** A selection [P] of elements whose keys are tied. *)
Variable P : A -> bool.
Hypothesis P_tied :
  forall x y, P x = true -> P y = true -> Py.islt key ltb x y = false.

Lemma filter_none (l : list A) :
  (forall z, In z l -> P z = false) -> filter P l = [].
Proof.
  induction l as [|a l IH]; intros H; [reflexivity|].
  cbn [filter]. rewrite (H a (or_introl eq_refl)).
  apply IH. intros z Hz. apply H. now right.
Qed.

Lemma skipn_nth_error (s : list A) (n : nat) (x : A) :
  nth_error s n = Some x -> exists rest, skipn n s = x :: rest.
Proof.
  revert n. induction s as [|a s IH]; intros [|n] H; try discriminate.
  - cbn in H. injection H as <-. now exists s.
  - cbn in H. cbn [skipn]. now apply IH.
Qed.

Lemma StronglySorted_app_tail (R : A -> A -> Prop) (l1 l2 : list A) :
  StronglySorted R (l1 ++ l2) -> StronglySorted R l2.
Proof.
  induction l1 as [|a l1 IH]; [trivial|].
  cbn [app]. intros H. apply StronglySorted_inv in H. now apply IH.
Qed.

Lemma binary_insert_filter (sorted : list A) (pivot : A) :
  Forall dom sorted -> dom pivot ->
  Sorted (no_descent key ltb) sorted ->
  filter P (Py.binary_insert key ltb sorted pivot)
  = filter P sorted ++ filter P [pivot].
Proof.
  intros Hdom Hp Hs. unfold Py.binary_insert. cbv zeta.
  destruct (bisect_spec key ltb (List.length sorted) pivot sorted 0
              (List.length sorted)) as [Hb [_ Hr]]; [lia | lia |].
  set (n := Py.bisect key ltb (List.length sorted) pivot sorted 0
              (List.length sorted)) in *.
  rewrite <- (firstn_skipn n sorted) at 3.
  rewrite !filter_app. cbn [filter]. rewrite <- app_assoc. f_equal.
  destruct (P pivot) eqn:Ppivot; [|now rewrite app_nil_r].
  assert (Hnone : filter P (skipn n sorted) = []).
  { destruct Hr as [Hr|[x [Hx Hlt]]].
    - rewrite Hr, skipn_all. reflexivity.
    - destruct (skipn_nth_error _ _ _ Hx) as [rest Hrest].
      pose proof (no_descent_strongly sorted Hdom Hs) as Hss.
      rewrite <- (firstn_skipn n sorted) in Hss, Hdom.
      apply StronglySorted_app_tail in Hss. apply Forall_app in Hdom.
      destruct Hdom as [_ Hdom]. rewrite Hrest in *.
      apply StronglySorted_inv in Hss. destruct Hss as [_ Hall].
      inversion Hdom as [|? ? Hdx Hdrest]; subst.
      rewrite Forall_forall in Hall, Hdrest.
      apply filter_none. intros z [E|Hz].
      + subst z. destruct (P x) eqn:Px; [|reflexivity].
        rewrite (P_tied pivot x Ppivot Px) in Hlt. discriminate.
      + destruct (P z) eqn:Pz; [|reflexivity]. exfalso.
        assert (Hzx : Py.islt key ltb z x = false) by now apply Hall.
        assert (Hpz : Py.islt key ltb pivot z = false) by now apply P_tied.
        rewrite (ge_trans pivot z x Hp (Hdrest z Hz) Hdx Hpz Hzx) in Hlt.
        discriminate. }
  rewrite Hnone. reflexivity.
Qed.

Lemma fold_binary_insert_filter (rest run : list A) :
  Forall dom run -> Forall dom rest ->
  Sorted (no_descent key ltb) run ->
  filter P (fold_left (Py.binary_insert key ltb) rest run)
  = filter P run ++ filter P rest.
Proof.
  revert run. induction rest as [|x rest IH]; intros run Hrun Hrest Hs.
  - cbn. now rewrite app_nil_r.
  - inversion Hrest as [|? ? Hx Hrest']; subst. cbn [fold_left].
    rewrite IH.
    + rewrite binary_insert_filter by assumption.
      rewrite <- app_assoc. cbn [filter]. now destruct (P x).
    + apply (Permutation_Forall
               (Permutation_sym (binary_insert_perm key ltb run x))).
      apply Forall_app. split; [exact Hrun | now constructor].
    + exact Hrest'.
    + now apply binary_insert_no_descent.
Qed.

(** A run that descends strictly holds at most one of the tied
    elements, so that turning it round does not change their order. *)
Lemma descending_run_filter (run : list A) :
  Forall dom run ->
  Sorted (fun x y => Py.islt key ltb y x = true) run ->
  filter P (rev run) = filter P run.
Proof.
  intros Hdom Hs.
  assert (Hss : StronglySorted (fun x y => Py.islt key ltb y x = true) run).
  { apply Sorted_strongly; [|exact Hdom | exact Hs].
    intros x y z Hx Hy Hz Hxy Hyz. now apply (lt_trans z y x). }
  rewrite filter_rev.
  assert (Hshort : (List.length (filter P run) <= 1)%nat).
  { clear Hdom Hs. induction Hss as [|a l Hss IH Hall]; [cbn; lia|].
    cbn [filter]. destruct (P a) eqn:Pa; [|exact IH].
    assert (Hnone : filter P l = []).
    { rewrite Forall_forall in Hall. apply filter_none. intros y Hy.
      destruct (P y) eqn:Py; [|reflexivity].
      specialize (Hall y Hy). cbv beta in Hall.
      rewrite (P_tied y a Py Pa) in Hall. discriminate. }
    rewrite Hnone. cbn. lia. }
  destruct (filter P run) as [|a [|b l]]; try reflexivity.
  cbn in Hshort. lia.
Qed.

Lemma sort_forward_filter_tied (l : list A) :
  Forall dom l ->
  filter P (Py.sort_forward key ltb l) = filter P l.
Proof.
  intros Hdom. unfold Py.sort_forward.
  destruct l as [|x [|y l]]; try reflexivity.
  pose proof (first_run_no_descent key ltb asym (x :: y :: l)) as Hrun.
  assert (Hfirst :
    let (n, descending) := Py.count_run key ltb (x :: y :: l) in
    filter P (if descending then rev (firstn n (x :: y :: l))
              else firstn n (x :: y :: l))
    = filter P (firstn n (x :: y :: l))).
  { cbn [Py.count_run]. destruct (Py.islt key ltb y x) eqn:E; [|reflexivity].
    apply descending_run_filter.
    - rewrite <- (firstn_skipn (2 + Py.run_descending key ltb y l)
                    (x :: y :: l)) in Hdom.
      apply Forall_app in Hdom. tauto.
    - change (firstn (2 + Py.run_descending key ltb y l) (x :: y :: l))
        with (x :: y :: firstn (Py.run_descending key ltb y l) l).
      constructor; [apply run_descending_sorted | now constructor]. }
  destruct (Py.count_run key ltb (x :: y :: l)) as [n descending].
  rewrite <- (firstn_skipn n (x :: y :: l)) in Hdom.
  apply Forall_app in Hdom. destruct Hdom as [Hd1 Hd2].
  rewrite fold_binary_insert_filter; [| |exact Hd2|exact Hrun].
  - rewrite Hfirst, <- filter_app, firstn_skipn. reflexivity.
  - destruct descending; [now apply Forall_rev | exact Hd1].
Qed.

Lemma sort_filter_tied (reverse : bool) (l : list A) :
  Forall dom l ->
  filter P (Py.sort key ltb reverse l) = filter P l.
Proof.
  intros Hdom. destruct reverse; cbn [Py.sort];
    [|now apply sort_forward_filter_tied].
  rewrite filter_rev, sort_forward_filter_tied, filter_rev, rev_involutive;
    [reflexivity | now apply Forall_rev].
Qed.

End Stability.

Section SortMap.
Local Open Scope list_scope.
Context {A B K : Type}.
Variable f : A -> B.
Variable key : B -> K.
Variable ltb : K -> K -> bool.

Lemma run_ascending_map (prev : A) (l : list A) :
  Py.run_ascending key ltb (f prev) (map f l)
  = Py.run_ascending (fun a => key (f a)) ltb prev l.
Proof.
  revert prev. induction l as [|x l IH]; intros prev; [reflexivity|].
  cbn [map Py.run_ascending]. unfold Py.islt. now rewrite IH.
Qed.

Lemma run_descending_map (prev : A) (l : list A) :
  Py.run_descending key ltb (f prev) (map f l)
  = Py.run_descending (fun a => key (f a)) ltb prev l.
Proof.
  revert prev. induction l as [|x l IH]; intros prev; [reflexivity|].
  cbn [map Py.run_descending]. unfold Py.islt. now rewrite IH.
Qed.

Lemma count_run_map (l : list A) :
  Py.count_run key ltb (map f l) = Py.count_run (fun a => key (f a)) ltb l.
Proof.
  destruct l as [|x [|y l]]; try reflexivity.
  cbn [map Py.count_run]. unfold Py.islt.
  now rewrite run_ascending_map, run_descending_map.
Qed.

Lemma bisect_map (fuel : nat) (pivot : A) (a : list A) (l r : nat) :
  Py.bisect key ltb fuel (f pivot) (map f a) l r
  = Py.bisect (fun a => key (f a)) ltb fuel pivot a l r.
Proof.
  revert l r. induction fuel as [|fuel IH]; intros l r; [reflexivity|].
  cbn [Py.bisect]. destruct (Nat.ltb l r); [|reflexivity].
  rewrite nth_error_map.
  destruct (nth_error a (l + (r - l) / 2)) as [x|]; cbn [option_map];
    [|reflexivity].
  unfold Py.islt. now rewrite !IH.
Qed.

Lemma binary_insert_map (sorted : list A) (pivot : A) :
  Py.binary_insert key ltb (map f sorted) (f pivot)
  = map f (Py.binary_insert (fun a => key (f a)) ltb sorted pivot).
Proof.
  unfold Py.binary_insert. cbv zeta.
  rewrite length_map, bisect_map, map_app, firstn_map. cbn [map].
  now rewrite skipn_map.
Qed.

Lemma fold_binary_insert_map (rest run : list A) :
  fold_left (Py.binary_insert key ltb) (map f rest) (map f run)
  = map f (fold_left (Py.binary_insert (fun a => key (f a)) ltb) rest run).
Proof.
  revert run. induction rest as [|x rest IH]; intros run; [reflexivity|].
  cbn [map fold_left]. now rewrite binary_insert_map, IH.
Qed.

Lemma sort_map (reverse : bool) (l : list A) :
  Py.sort key ltb reverse (map f l)
  = map f (Py.sort (fun a => key (f a)) ltb reverse l).
Proof.
  assert (Hfwd : forall l, Py.sort_forward key ltb (map f l)
                           = map f (Py.sort_forward (fun a => key (f a))
                                      ltb l)).
  { intros l0. unfold Py.sort_forward.
    destruct l0 as [|x [|y l0]]; try reflexivity.
    change (map f (x :: y :: l0)) with (f x :: f y :: map f l0) at 1.
    change (f x :: f y :: map f l0) with (map f (x :: y :: l0)).
    rewrite count_run_map.
    destruct (Py.count_run (fun a => key (f a)) ltb (x :: y :: l0))
      as [n descending].
    rewrite skipn_map, firstn_map.
    destruct descending.
    - now rewrite <- map_rev, fold_binary_insert_map.
    - now rewrite fold_binary_insert_map. }
  destruct reverse; cbn [Py.sort]; [|apply Hfwd].
  now rewrite <- map_rev, Hfwd, map_rev.
Qed.

End SortMap.

(** ** The orders of the sort keys *)

Section KeyOrders.


Lemma Z_ltb_trans (a b c : Z) :
  (a <? b) = true -> (b <? c) = true -> (a <? c) = true.
Proof. rewrite !Z.ltb_lt. lia. Qed.

Lemma Z_geb_trans (a b c : Z) :
  (a <? b) = false -> (b <? c) = false -> (a <? c) = false.
Proof. rewrite !Z.ltb_ge. lia. Qed.

Lemma ascii_compare_cases (a b : ascii) :
  (Ascii.compare a b = Eq /\ a = b)
  \/ (Ascii.compare a b = Lt /\ (N_of_ascii a < N_of_ascii b)%N)
  \/ (Ascii.compare a b = Gt /\ (N_of_ascii b < N_of_ascii a)%N).
Proof.
  unfold Ascii.compare.
  destruct (N.compare_spec (N_of_ascii a) (N_of_ascii b)) as [E|L|G].
  - left. split; [reflexivity|].
    rewrite <- (ascii_N_embedding a), <- (ascii_N_embedding b). now rewrite E.
  - right. left. now split.
  - right. right. now split.
Qed.

Lemma ascii_compare_refl (c : ascii) : Ascii.compare c c = Eq.
Proof. unfold Ascii.compare. apply N.compare_refl. Qed.

Lemma string_compare_refl (s : string) : String.compare s s = Eq.
Proof.
  induction s as [|c s IH]; [reflexivity|]. cbn.
  now rewrite ascii_compare_refl.
Qed.

Lemma string_ltb_asym (a b : string) :
  String.ltb a b = true -> String.ltb b a = false.
Proof.
  unfold String.ltb. rewrite (String.compare_antisym b a).
  now destruct (String.compare a b).
Qed.

(** The comparison of strings composes as that of an order does. *)
Lemma string_compare_trans (a b c : string) :
  (String.compare a b = Lt -> String.compare b c <> Gt ->
   String.compare a c = Lt)
  /\ (String.compare a b <> Gt -> String.compare b c = Lt ->
      String.compare a c = Lt)
  /\ (String.compare a b = Eq -> String.compare b c = Eq ->
      String.compare a c = Eq).
Proof.
  revert b c.
  induction a as [|c1 a IH]; intros [|c2 b] [|c3 c]; cbn;
    try (repeat split; congruence).
  destruct (ascii_compare_cases c1 c2) as [[E12 ?]|[[E12 ?]|[E12 ?]]];
    destruct (ascii_compare_cases c2 c3) as [[E23 ?]|[[E23 ?]|[E23 ?]]];
    destruct (ascii_compare_cases c1 c3) as [[E13 ?]|[[E13 ?]|[E13 ?]]];
    rewrite E12, E23, E13; subst;
    try lia; try (repeat split; congruence).
  apply IH.
Qed.

Lemma string_ltb_trans (a b c : string) :
  String.ltb a b = true -> String.ltb b c = true -> String.ltb a c = true.
Proof.
  unfold String.ltb. intros Hab Hbc.
  destruct (string_compare_trans a b c) as [H _].
  rewrite H; [reflexivity | |].
  - now destruct (String.compare a b).
  - now destruct (String.compare b c).
Qed.

Lemma string_geb_trans (a b c : string) :
  String.ltb a b = false -> String.ltb b c = false -> String.ltb a c = false.
Proof.
  unfold String.ltb. intros Hab Hbc.
  destruct (String.compare a c) eqn:Eac; try reflexivity. exfalso.
  destruct (string_compare_trans a c b) as [H _].
  rewrite H in Hab; [discriminate | exact Eac |].
  rewrite (String.compare_antisym c b).
  destruct (String.compare b c); cbn; discriminate.
Qed.

Lemma string_ltb_irrefl (s : string) : String.ltb s s = false.
Proof. unfold String.ltb. now rewrite string_compare_refl. Qed.


End KeyOrders.
(** ** Sale selection *)

Section SaleSelection.
Import BatchOperations.

Lemma slice_to_all {A} (l : list A) (n : Z) :
  Z.of_nat (List.length l) <= n -> Py.slice_to l n = l.
Proof.
  intros H. unfold Py.slice_to.
  destruct (Z.ltb_spec n 0); [lia|].
  apply firstn_all2. lia.
Qed.

(** C1, as the code has it: for the three cards A (1985, 60, Mint, no
    flag), B (2015, 30, Excellent, RC) and C (2021, 15, Near Mint, no
    flag), whatever their other fields, the sale selection with
    [min_value = 10], [exclude_favorites = True] and [max_cards >= 3]
    keeps all three and returns [A; B; C], by descending value.  A is not
    excluded: its year is after 1980 and its value is at most 500. *)
Theorem select_cards_for_sale_example (ra rb rc : Card) (max_cards : Z) :
  3 <= max_cards ->
  select_cards_for_sale [card_A ra; card_B rb; card_C rc] 10 max_cards true
  = [card_A ra; card_B rb; card_C rc].
Proof.
  intros Hmax. unfold select_cards_for_sale.
  change (filter (sale_candidate 10 true)
            [card_A ra; card_B rb; card_C rc])
    with [card_A ra; card_B rb; card_C rc].
  change (Py.sort market_value num_lt true
            [card_A ra; card_B rb; card_C rc])
    with [card_A ra; card_B rb; card_C rc].
  apply slice_to_all. simpl. lia.
Qed.

Lemma select_cards_for_sale_example_witness :
  3 <= 50 /\
  select_cards_for_sale
    [card_A blank_card; card_B blank_card; card_C blank_card] 10 50 true
  = [card_A blank_card; card_B blank_card; card_C blank_card].
Proof.
  split; [lia|].
  apply (select_cards_for_sale_example blank_card blank_card blank_card 50).
  lia.
Defined.

(** C1, as stated, fails: on the three cards the selection does not
    return [B; C]. *)
Lemma select_cards_for_sale_keeps_A :
  select_cards_for_sale
    [card_A blank_card; card_B blank_card; card_C blank_card] 10 3 true
  <> [card_B blank_card; card_C blank_card].
Proof. vm_compute. discriminate. Qed.

End SaleSelection.

(** ** The query engine *)

Section QueryEngine.
Import CardSearcher.

(** C8: [advanced_search] called with no criteria returns the
    collection itself: the same rows in the same order. *)
Theorem advanced_search_no_criteria (cards : list Card) :
  advanced_search cards no_kwargs = cards.
Proof. reflexivity. Qed.

(** C10: [search_by_year] called with [year], [year_min] and [year_max]
    all [None] returns the empty list, whatever the collection. *)
Theorem search_by_year_all_none (cards : list Card) :
  search_by_year cards None None None = [].
Proof.
  unfold search_by_year.
  induction cards as [|card cards IH]; [reflexivity|].
  cbn [filter year_keeps]. exact IH.
Qed.

Example advanced_search_cowboys_sample :
  let c1 := sale_card (mkCard "1" "Troy Aikman" "Dallas COWBOYS" 0 "" "" ""
                         "" "" 0 "" "" "") 1992 12 "Mint" "" in
  let c2 := sale_card (mkCard "2" "Emmitt Smith" "Dallas Cowboys" 0 "" "" ""
                         "" "" 0 "" "" "") 1993 (999 # 100) "Mint" "" in
  let c3 := sale_card (mkCard "3" "Tom Brady" "New England Patriots" 0 "" ""
                         "" "" "" 0 "" "" "") 2000 40 "Mint" "RC" in
  let c4 := sale_card (mkCard "4" "Dak Prescott" "Dallas Cowboys" 0 "" "" ""
                         "" "" 0 "" "" "") 2016 10 "Mint" "RC" in
  advanced_search [c1; c2; c3; c4] cowboys_min_10 = [c1; c4].
Proof. reflexivity. Qed.

(** C7, as the code has it: with [team="Cowboys"] and [min_value=10],
    [advanced_search] returns exactly the rows whose lower-cased team
    contains "cowboys" and whose market value is not below 10, that is at
    least 10 or NaN, in the order of the collection.  On a collection
    without NaN these are the rows of a Cowboys team and of a value of at
    least 10. *)
Theorem advanced_search_cowboys_min_10 (cards : list Card) :
  advanced_search cards cowboys_min_10
  = filter (fun card =>
              (Py.str_in "cowboys" (Py.lower (team card))
               && negb (num_lt (market_value card) 10))%bool)
           cards
  /\ (all_numbers cards = true ->
      advanced_search cards cowboys_min_10
      = filter (fun card =>
                  (Py.str_in "cowboys" (Py.lower (team card))
                   && num_ge (market_value card) 10)%bool)
               cards).
Proof.
  assert (Hpass : advanced_search cards cowboys_min_10
                  = filter (fun card =>
                              (Py.str_in "cowboys" (Py.lower (team card))
                               && negb (num_lt (market_value card) 10))%bool)
                      cards).
  { rewrite advanced_search_pass. unfold criteria_pass, cowboys_min_10.
    cbn [kw_name kw_exact_name kw_team kw_year kw_year_min kw_year_max
         kw_brand kw_min_value kw_max_value kw_condition kw_rookie_only].
    change (Py.truthy_ostr (Some "Cowboys")) with true.
    change (Py.truthy_onum (Some (Fin 10)) || Py.truthy_onum None)%bool
      with true.
    change (Py.lower (get_str (Some "Cowboys"))) with "cowboys".
    cbn [cond_filter Py.truthy_ostr Py.truthy_oint orb].
    rewrite filter_andb. apply filter_ext. intros card.
    reflexivity. }
  split; [exact Hpass|].
  intros Hnum. rewrite Hpass.
  apply filter_ext_in. intros card Hin. f_equal.
  unfold all_numbers in Hnum. rewrite forallb_forall in Hnum.
  specialize (Hnum card Hin). apply negb_true_iff in Hnum.
  unfold num_ge.
  destruct (num_lt (market_value card) 10) eqn:E; cbn [negb].
  - symmetry. apply not_true_is_false. intros Hle.
    apply num_le_lt_false in Hle. congruence.
  - symmetry. apply num_not_lt_le; [exact Hnum | reflexivity | exact E].
Qed.

(** C7, as stated, fails: a Cowboys card whose value is NaN is returned,
    although its value is not at least 10. *)
Lemma advanced_search_cowboys_nan :
  advanced_search [nan_cowboy] cowboys_min_10
  <> filter (fun card =>
               (Py.str_in "cowboys" (Py.lower (team card))
                && num_ge (market_value card) 10)%bool)
            [nan_cowboy].
Proof. vm_compute. discriminate. Qed.

Lemma year_range_as_filter (a b : option Z) (l : list Card) :
  cond_filter (Py.truthy_oint a || Py.truthy_oint b)%bool
    (year_keeps None a b) l
  = filter (within_range a b) l.
Proof.
  destruct (Py.truthy_oint a || Py.truthy_oint b)%bool eqn:Eact;
    cbn [cond_filter].
  - apply filter_ext. intros card. unfold year_keeps, within_range.
    destruct a as [m|], b as [m'|]; cbn [Py.truthy_oint] in *;
      try discriminate; rewrite ?Z.gtb_ltb;
      repeat match goal with
      | |- context [?x =? ?y] => destruct (Z.eqb_spec x y)
      | |- context [?x <? ?y] => destruct (Z.ltb_spec x y)
      | |- context [?x <=? ?y] => destruct (Z.leb_spec x y)
      end; cbn; try reflexivity; try lia.
  - rewrite <- (filter_true l) at 1. apply filter_ext. intros card.
    unfold within_range.
    destruct a as [m|], b as [m'|]; cbn [Py.truthy_oint] in Eact;
      repeat match goal with
      | H : context [?x =? ?y] |- _ => destruct (Z.eqb_spec x y)
      end; cbn in Eact; try discriminate; subst; reflexivity.
Qed.

(** C2, as the code has it: when an exact year and a year range are both
    given to [advanced_search], both apply.  The outcome is the outcome
    of the search with the exact year alone, restricted to the rows whose
    year lies within the range (a bound that is absent or zero imposing
    nothing); the exact year does not override the range. *)
Theorem advanced_search_year_and_range (cards : list Card) (kw : Kwargs) :
  advanced_search cards kw
  = filter (within_range (kw_year_min kw) (kw_year_max kw))
      (advanced_search cards (drop_year_range kw)).
Proof.
  rewrite !advanced_search_pass. unfold criteria_pass, drop_year_range.
  cbn [kw_name kw_exact_name kw_team kw_year kw_year_min kw_year_max
       kw_brand kw_min_value kw_max_value kw_condition kw_rookie_only].
  cbn [Py.truthy_oint orb]. cbn [cond_filter].
  rewrite <- year_range_as_filter.
  set (range := cond_filter
                  (Py.truthy_oint (kw_year_min kw)
                   || Py.truthy_oint (kw_year_max kw))%bool
                  (year_keeps None (kw_year_min kw) (kw_year_max kw))).
  unfold range at 1.
  rewrite (cond_filter_comm (Py.truthy_ostr (kw_brand kw))).
  rewrite (cond_filter_comm
             (Py.truthy_onum (kw_min_value kw)
              || Py.truthy_onum (kw_max_value kw))%bool).
  rewrite (cond_filter_comm (Py.truthy_ostr (kw_condition kw))).
  rewrite (cond_filter_comm (kw_rookie_only kw)).
  reflexivity.
Qed.

(** C2, as stated, fails: with the exact year 2000 and the range
    2010..2019 the card of 2000 is not returned, while the exact year
    alone returns it. *)
Lemma advanced_search_year_not_precedent :
  advanced_search [card_2000] year_2000_and_2010s
  <> advanced_search [card_2000] year_2000_only.
Proof. vm_compute. discriminate. Qed.

End QueryEngine.

(** ** Sorting and limiting of results *)

Section SortAndLimit.
Import CardSearcher.

Lemma all_numbers_Forall (cards : list Card) :
  all_numbers cards = true ->
  Forall (fun card => is_nan (market_value card) = false) cards.
Proof.
  unfold all_numbers. rewrite forallb_forall, Forall_forall.
  intros H card Hin. now apply negb_true_iff, H.
Qed.

(** Sorting by value, for any selection of rows whose values are tied. *)
Lemma sort_value_filter_tied (P : Card -> bool) (results : list Card)
  (descending : bool) :
  (forall x y, P x = true -> P y = true ->
               num_lt (market_value x) (market_value y) = false) ->
  all_numbers results = true ->
  filter P (Py.sort market_value num_lt descending results)
  = filter P results.
Proof.
  intros Htied Hnum.
  apply (sort_filter_tied market_value num_lt
           (fun card => is_nan (market_value card) = false)).
  - intros x y. apply num_lt_asym.
  - intros x y z _ _ _. apply num_lt_trans.
  - intros x y z _ Hy _. now apply num_ge_trans.
  - exact Htied.
  - now apply all_numbers_Forall.
Qed.

(** What a sort by a number leaves, on a list without NaN: the numbers in
    order. *)
Lemma sort_num_sorted {A : Type} (key : A -> num) (l : list A)
  (reverse : bool) :
  Forall (fun x => is_nan (key x) = false) l ->
  Sorted (directed reverse (fun x y => num_le (key x) (key y) = true))
    (Py.sort key num_lt reverse l).
Proof.
  intros Hnum.
  assert (Hall : forall l' : list A,
             Permutation l' l ->
             Forall (fun x => is_nan (key x) = false) l').
  { intros l' Hl. exact (Permutation_Forall (Permutation_sym Hl) Hnum). }
  assert (Hconv : forall l' : list A,
             Forall (fun x => is_nan (key x) = false) l' ->
             Sorted (no_descent key num_lt) l' ->
             Sorted (fun x y => num_le (key x) (key y) = true) l').
  { intros l' Hl. induction 1 as [|a l' Hs IH Hhd]; [constructor|].
    inversion Hl as [|? ? Ha Hl']; subst.
    constructor; [now apply IH|].
    destruct Hhd as [|b l' Hab]; constructor.
    inversion Hl' as [|? ? Hb _]; subst.
    now apply num_not_lt_le. }
  destruct reverse; cbn [Py.sort directed].
  - apply (Sorted_rev (fun x y => num_le (key x) (key y) = true)), Hconv.
    + apply Hall. rewrite sort_forward_perm. symmetry. apply Permutation_rev.
    + apply sort_forward_no_descent. intros x y. apply num_lt_asym.
  - apply Hconv.
    + apply Hall, sort_forward_perm.
    + apply sort_forward_no_descent. intros x y. apply num_lt_asym.
Qed.

Lemma sort_value_sorted (results : list Card) (descending : bool) :
  all_numbers results = true ->
  Sorted (directed descending
            (fun x y => num_le (market_value x) (market_value y) = true))
    (Py.sort market_value num_lt descending results).
Proof.
  intros Hnum. now apply sort_num_sorted, all_numbers_Forall.
Qed.

(** On a list without NaN, [sort_results] by value returns the rows it
    was given, ordered by market value: descending with
    [descending=True], ascending otherwise. *)
Lemma sort_results_value_sorts (results : list Card) :
  all_numbers results = true ->
  Permutation (sort_results results "value" true) results
  /\ Permutation (sort_results results "value" false) results
  /\ Sorted (fun x y => num_le (market_value y) (market_value x) = true)
       (sort_results results "value" true)
  /\ Sorted (fun x y => num_le (market_value x) (market_value y) = true)
       (sort_results results "value" false).
Proof.
  intros Hnum.
  change (sort_results results "value" true)
    with (Py.sort market_value num_lt true results).
  change (sort_results results "value" false)
    with (Py.sort market_value num_lt false results).
  split; [apply sort_perm|]. split; [apply sort_perm|]. split.
  - exact (sort_value_sorted results true Hnum).
  - exact (sort_value_sorted results false Hnum).
Qed.

(** On a list without NaN, sorting by value leaves the rows of any one
    market value in the order they had. *)
Lemma sort_results_value_class (results : list Card) (descending : bool)
  (v : num) :
  all_numbers results = true ->
  filter (fun card => num_eq (market_value card) v)
    (sort_results results "value" descending)
  = filter (fun card => num_eq (market_value card) v) results.
Proof.
  intros Hnum.
  change (sort_results results "value" descending)
    with (Py.sort market_value num_lt descending results).
  apply sort_value_filter_tied; [|exact Hnum].
  intros x y Hx Hy. apply num_same_not_lt.
  apply num_eq_same in Hx, Hy.
  apply (num_same_trans _ v); [exact Hx | now apply num_same_sym].
Qed.

Example sort_results_value_descending :
  sort_results [cheap; tie_first; dear; tie_second] "value" true
  = [dear; tie_first; tie_second; cheap].
Proof. reflexivity. Qed.

Example sort_results_value_ascending :
  sort_results [cheap; tie_second; dear; tie_first] "value" false
  = [cheap; tie_second; tie_first; dear].
Proof. reflexivity. Qed.

(** C9, as the code has it: on a sequence in which no market value is
    NaN, [sort_results] by value is stable.  For any two cards [c1] and
    [c2] of equal market value, the occurrences of [c1] and [c2] come in
    the same order after the sort as before it, in both directions. *)
Theorem sort_results_value_stable (results : list Card)
  (descending : bool) (c1 c2 : Card) :
  all_numbers results = true ->
  num_eq (market_value c1) (market_value c2) = true ->
  filter (fun card => (card_eqb card c1 || card_eqb card c2)%bool)
    (sort_results results "value" descending)
  = filter (fun card => (card_eqb card c1 || card_eqb card c2)%bool)
      results.
Proof.
  intros Hnum Heq.
  change (sort_results results "value" descending)
    with (Py.sort market_value num_lt descending results).
  apply sort_value_filter_tied; [|exact Hnum].
  intros x y Hx Hy.
  assert (Hval : forall z,
             (card_eqb z c1 || card_eqb z c2)%bool = true ->
             num_same (market_value z) (market_value c1) = true).
  { intros z Hz. apply orb_true_iff in Hz.
    destruct Hz as [Hz|Hz]; apply card_eqb_fields in Hz.
    - tauto.
    - apply (num_same_trans _ (market_value c2)); [tauto|].
      now apply num_same_sym, num_eq_same. }
  apply num_same_not_lt.
  apply (num_same_trans _ (market_value c1)); [now apply Hval|].
  now apply num_same_sym, Hval.
Qed.

Lemma sort_results_value_stable_witness :
  all_numbers [cheap; tie_first; dear; tie_second] = true
  /\ num_eq (market_value tie_first) (market_value tie_second) = true
  /\ filter (fun card =>
               (card_eqb card tie_first || card_eqb card tie_second)%bool)
       (sort_results [cheap; tie_first; dear; tie_second] "value" true)
     = filter (fun card =>
                 (card_eqb card tie_first || card_eqb card tie_second)%bool)
         [cheap; tie_first; dear; tie_second].
Proof.
  split; [reflexivity|]. split; [reflexivity|].
  apply (sort_results_value_stable
           [cheap; tie_first; dear; tie_second] true tie_first tie_second);
    reflexivity.
Defined.

(** C9, as stated, fails on a sequence that holds a NaN: the two cards of
    the value 2 come out of the ascending sort in the other order. *)
Lemma sort_results_value_unstable_nan :
  num_eq (market_value nan_tie_first) (market_value nan_tie_second) = true
  /\ sort_results nan_sequence "value" false
     = [ valued "z" 0; valued "h" (1 # 2); valued "o" 1; nan_tie_second;
         valued "s" 7; valued "NAN" NaN; nan_tie_first ]
  /\ filter (fun card =>
            (card_eqb card nan_tie_first
             || card_eqb card nan_tie_second)%bool)
    (sort_results nan_sequence "value" false)
  <> filter (fun card =>
               (card_eqb card nan_tie_first
                || card_eqb card nan_tie_second)%bool)
       nan_sequence.
Proof.
  split; [reflexivity|]. split; [reflexivity|].
  vm_compute. discriminate.
Qed.

Lemma slice_to_pos {A} (l : list A) (p : positive) :
  Py.slice_to l (Z.pos p) = firstn (Pos.to_nat p) l.
Proof. reflexivity. Qed.

(** A negative cap is truthy as well: the slice then drops the last
    rows instead of keeping all. *)
Lemma limit_results_negative (results : list Card) (p : positive) :
  limit_results results (Some (Z.neg p))
  = firstn (List.length results - Pos.to_nat p) results.
Proof.
  unfold limit_results, Py.slice_to.
  cbn [Py.truthy_oint Z.eqb negb Z.ltb Z.compare].
  f_equal. lia.
Qed.

(** C4, as the code has it: result limiting with the cap unset or equal
    to 0 keeps the whole sequence, and a positive cap [N] truncates it to
    its first [N] elements. *)
Theorem limit_results_cap (results : list Card) :
  limit_results results None = results
  /\ limit_results results (Some 0) = results
  /\ forall p : positive,
       limit_results results (Some (Z.pos p))
       = firstn (Pos.to_nat p) results.
Proof. repeat split. Qed.

(** C4, as stated, fails for a negative cap: with the cap -1 the last
    result is dropped. *)
Lemma limit_results_minus_one :
  limit_results [dear; cheap] (Some (-1)) <> [dear; cheap].
Proof. vm_compute. discriminate. Qed.

(** [format_results] builds its text from the limited results only. *)
Lemma format_results_limited (render : bool -> list Card -> string)
  (results : list Card) (detailed : bool) (limit : option Z) :
  format_results render results detailed limit
  = format_results render (limit_results results limit) detailed None.
Proof. reflexivity. Qed.

End SortAndLimit.

(** ** Classifications *)

Section Classification.
Import BatchOperations.

(** C5, as the code has it: [_categorize_value] answers the high tier
    exactly for the values of at least 100, the medium tier exactly from
    20 up to, not including, 100, the low tier exactly from 5 up to, not
    including, 20, and the minimal tier for every other value: the values
    below 5 and NaN.  So 100 is high, 99.99 and 20 are medium, 19.99 and 5
    are low and 4.99 is minimal. *)
Theorem categorize_value_tiers :
  (forall value : num,
      (_categorize_value value = "High Value ($100+)"%string
       <-> num_ge value 100 = true)
      /\ (_categorize_value value = "Medium Value ($20-$99)"%string
          <-> num_ge value 20 = true /\ num_lt value 100 = true)
      /\ (_categorize_value value = "Low Value ($5-$19)"%string
          <-> num_ge value 5 = true /\ num_lt value 20 = true)
      /\ (_categorize_value value = "Minimal Value (<$5)"%string
          <-> num_lt value 5 = true \/ value = NaN))
  /\ _categorize_value 100 = "High Value ($100+)"%string
  /\ _categorize_value (9999 # 100) = "Medium Value ($20-$99)"%string
  /\ _categorize_value 20 = "Medium Value ($20-$99)"%string
  /\ _categorize_value (1999 # 100) = "Low Value ($5-$19)"%string
  /\ _categorize_value 5 = "Low Value ($5-$19)"%string
  /\ _categorize_value (499 # 100) = "Minimal Value (<$5)"%string.
Proof.
  split; [|repeat split].
  intros value. unfold _categorize_value, num_ge.
  destruct value as [q| | |]; cbn [num_le num_lt].
  - destruct (Qle_bool_cases 100 q) as [[-> ?]|[-> ?]];
      destruct (Qle_bool_cases 20 q) as [[-> ?]|[-> ?]];
      destruct (Qle_bool_cases 5 q) as [[-> ?]|[-> ?]];
      cbn [negb]; try (exfalso; lra);
      repeat split; intros; try discriminate; try reflexivity;
      try tauto; intuition discriminate.
  - repeat split; intros; try discriminate; try reflexivity;
      intuition discriminate.
  - repeat split; intros; try discriminate; try reflexivity;
      try tauto; intuition discriminate.
  - repeat split; intros; try discriminate; try reflexivity;
      try tauto; intuition discriminate.
Qed.

(** C5, as stated, fails for NaN: its tier is the minimal one although it
    is not below 5. *)
Lemma categorize_value_nan :
  _categorize_value NaN = "Minimal Value (<$5)"%string
  /\ num_lt NaN 5 = false
  /\ ~ (forall value : num,
          _categorize_value value = "Minimal Value (<$5)"%string
          <-> num_lt value 5 = true).
Proof.
  split; [reflexivity|]. split; [reflexivity|].
  intros H. destruct (H NaN) as [H1 _].
  specialize (H1 eq_refl). discriminate.
Qed.

End Classification.

Section Eras.
Import AnalyzeCollection.

(** The counters of [simple_analysis.py] count the rows that the masks
    of [analyze_collection.py] select. *)
Lemma simple_analysis_counts (df : list Card) :
  SimpleAnalysis.vintage_90s (map year df) = List.length (vintage_90s df)
  /\ SimpleAnalysis.early_2000s (map year df) = List.length (early_2000s df)
  /\ SimpleAnalysis.modern_2010s (map year df)
     = List.length (modern_2010s df)
  /\ SimpleAnalysis.recent_2020s (map year df)
     = List.length (recent_2020s df).
Proof.
  unfold SimpleAnalysis.vintage_90s, SimpleAnalysis.early_2000s,
    SimpleAnalysis.modern_2010s, SimpleAnalysis.recent_2020s,
    SimpleAnalysis.count_if, vintage_90s, early_2000s, modern_2010s,
    recent_2020s, vintage_90s_mask, early_2000s_mask, modern_2010s_mask,
    recent_2020s_mask.
  repeat split; induction df as [|row df IH]; try reflexivity;
    cbn [map filter]; rewrite ?Z.geb_leb in *;
    match goal with
    | |- context [if ?b then _ else _] => destruct b
    end; cbn [List.length]; now rewrite ?IH.
Qed.

(** The column [is_vintage] of the inventory report follows the vintage
    mask, and [is_modern] the recent one. *)
Lemma inventory_report_eras (card : Card) :
  (BatchOperations.is_vintage card = "Yes"
   <-> era_mask Vintage (year card) = true)
  /\ (BatchOperations.is_modern card = "Yes"
      <-> era_mask Recent2020s (year card) = true).
Proof.
  unfold BatchOperations.is_vintage, BatchOperations.is_modern, era_mask,
    vintage_90s_mask, recent_2020s_mask.
  split.
  - destruct (year card <=? 1999); split; congruence.
  - destruct (year card >=? 2020); split; congruence.
Qed.

(** A year cell that is empty or does not parse is loaded by
    [CardSearcher] as the year 0, which the vintage mask selects; the loop
    of [simple_analysis.py] leaves such a cell out of its counters. *)
Lemma unparseable_year_loaded_vintage (parse_int : string -> option Z)
  (raw : string) :
  raw = ""%string \/ parse_int raw = None ->
  CardSearcher.load_year parse_int raw = 0
  /\ era_mask Vintage (CardSearcher.load_year parse_int raw) = true
  /\ SimpleAnalysis.collect_years parse_int [raw] = [].
Proof.
  unfold CardSearcher.load_year, SimpleAnalysis.collect_years.
  intros [-> | Hnone]; cbn [flat_map].
  - repeat split.
  - rewrite Hnone. destruct (Py.truthy_str raw); repeat split.
Qed.


End Eras.

(** ** The football franchises *)

Section Sport.

Lemma list_in_string_iff (s : string) (l : list string) :
  Py.list_in String.eqb s l = true <-> In s l.
Proof.
  unfold Py.list_in. rewrite existsb_exists. split.
  - intros [y [Hy E]]. apply String.eqb_eq in E. now subst.
  - intros H. exists s. split; [exact H | apply String.eqb_refl].
Qed.

Lemma football_teams_extended :
  AnalyzeCollection.football_teams
  = (BatchOperations.football_teams ++ extra_football_teams)%list.
Proof. reflexivity. Qed.

(** What [_determine_sport] calls football, the set of
    [analyze_collection] lists as football too. *)
Lemma determine_sport_football_isin (team_ : string) :
  BatchOperations._determine_sport team_ = "Football" ->
  AnalyzeCollection.isin_football_teams team_ = true.
Proof.
  unfold BatchOperations._determine_sport,
    AnalyzeCollection.isin_football_teams.
  destruct (Py.list_in String.eqb team_ BatchOperations.football_teams)
    eqn:E; [intros _ | discriminate].
  apply list_in_string_iff. rewrite football_teams_extended.
  apply in_or_app. left. now apply list_in_string_iff.
Qed.

(** The two classifications differ exactly on the six franchises that
    only [analyze_collection] lists. *)
Lemma determine_sport_differs_iff (team_ : string) :
  (BatchOperations._determine_sport team_ = "Baseball"
   /\ AnalyzeCollection.isin_football_teams team_ = true)
  <-> In team_ extra_football_teams.
Proof.
  unfold BatchOperations._determine_sport,
    AnalyzeCollection.isin_football_teams.
  rewrite list_in_string_iff, football_teams_extended, in_app_iff.
  destruct (Py.list_in String.eqb team_ BatchOperations.football_teams)
    eqn:E.
  - split; [intros [H _]; discriminate|].
    intros Hex. exfalso. revert E.
    destruct Hex as [<-|[<-|[<-|[<-|[<-|[<-|[]]]]]]]; vm_compute;
      discriminate.
  - split; [|tauto].
    intros [_ [H|H]]; [|exact H].
    apply list_in_string_iff in H. congruence.
Qed.

(** C3 fails on the code: "Chicago Bears" is baseball for
    [_determine_sport] and football for the set of
    [analyze_collection]. *)
Theorem determine_sport_chicago_bears :
  BatchOperations._determine_sport "Chicago Bears" = "Baseball"
  /\ AnalyzeCollection.isin_football_teams "Chicago Bears" = true.
Proof. split; reflexivity. Qed.

End Sport.

(** * Further properties of the code *)

(** ** The single searches and their combination *)

Section Searches.
Import CardSearcher.

Lemma cond_filter_criterion (active : bool) (p : Card -> bool)
  (l : list Card) :
  cond_filter active p l = filter (criterion active p) l.
Proof.
  destruct active; [reflexivity|].
  unfold criterion. cbn [cond_filter negb orb]. symmetry. apply filter_true.
Qed.

(** [advanced_search] returns, in the order of the collection, exactly the
    rows that pass every active criterion: the criteria are combined by
    "and", and a criterion whose value is falsy does not take part. *)
Theorem advanced_search_conjunction (cards : list Card) (kw : Kwargs) :
  advanced_search cards kw = filter (criteria_match kw) cards.
Proof.
  rewrite advanced_search_pass. unfold criteria_pass, criteria_match.
  rewrite !cond_filter_criterion, !filter_andb.
  apply filter_ext. intros card. cbv beta. now rewrite !andb_assoc.
Qed.

(** Keyword arguments that are all falsy (an empty text, the year 0, the
    value 0, [False]) select nothing: [advanced_search] returns the whole
    collection. *)
Theorem advanced_search_all_falsy (cards : list Card) (kw : Kwargs) :
  all_falsy kw = true -> advanced_search cards kw = cards.
Proof.
  unfold all_falsy. rewrite !andb_true_iff, !negb_true_iff.
  intros [[[[[[[[[Hn Ht] Hy] Hmin] Hmax] Hb] Hlo] Hhi] Hc] Hr].
  unfold advanced_search.
  now rewrite Hn, Ht, Hy, Hmin, Hmax, Hb, Hlo, Hhi, Hc, Hr.
Qed.

Lemma advanced_search_all_falsy_witness :
  all_falsy falsy_kwargs = true
  /\ advanced_search [card_2000; tie_first] falsy_kwargs
     = [card_2000; tie_first].
Proof.
  split; [reflexivity|].
  apply (advanced_search_all_falsy [card_2000; tie_first] falsy_kwargs).
  reflexivity.
Defined.

(** A value range whose upper bound lies below its lower bound finds no
    number: [search_by_value] then returns the rows whose value is NaN,
    which no bound turns away, and nothing when the collection has no such
    row. *)
Theorem search_by_value_inverted (cards : list Card) (lo hi : num) :
  num_lt hi lo = true ->
  search_by_value cards (Some lo) (Some hi)
  = filter (fun card => is_nan (market_value card)) cards
  /\ (all_numbers cards = true ->
      search_by_value cards (Some lo) (Some hi) = []).
Proof.
  intros Hlt.
  assert (Heq : search_by_value cards (Some lo) (Some hi)
                = filter (fun card => is_nan (market_value card)) cards).
  { unfold search_by_value. apply filter_ext. intros card.
    unfold value_keeps, num_gt. cbv zeta.
    destruct (is_nan (market_value card)) eqn:Enan.
    - destruct (market_value card); try discriminate.
      now destruct lo, hi.
    - destruct (num_lt (market_value card) lo) eqn:Elo; [reflexivity|].
      assert (Hlo : is_nan lo = false) by now destruct hi, lo.
      apply (num_not_lt_le _ _ Enan Hlo) in Elo.
      now rewrite (num_lt_le_trans _ _ _ Hlt Elo). }
  split; [exact Heq|].
  intros Hnum. rewrite Heq. clear Heq.
  unfold all_numbers in Hnum.
  induction cards as [|card cards IH]; [reflexivity|].
  cbn [forallb] in Hnum. apply andb_true_iff in Hnum as [Hc Hnum].
  cbn [filter]. apply negb_true_iff in Hc. rewrite Hc. now apply IH.
Qed.

Lemma search_by_value_inverted_witness :
  num_lt 5 10 = true
  /\ search_by_value [card_2000; nan_cowboy; dear] (Some (Fin 10))
       (Some (Fin 5))
     = filter (fun card => is_nan (market_value card))
         [card_2000; nan_cowboy; dear]
  /\ (all_numbers [card_2000; nan_cowboy; dear] = true ->
      search_by_value [card_2000; nan_cowboy; dear] (Some (Fin 10))
        (Some (Fin 5)) = []).
Proof.
  split; [reflexivity|].
  apply (search_by_value_inverted [card_2000; nan_cowboy; dear] 10 5).
  reflexivity.
Defined.

(** [search_high_value_cards] with a threshold finds the rows that
    [search_by_value] finds with that threshold as the lower bound and no
    upper bound, but for the rows whose value is NaN, and no row at all
    when the threshold is NaN: [>=] turns NaN away, where [search_by_value]
    only turns away what is below the bound. *)
Theorem search_high_value_as_range (cards : list Card) (threshold : num) :
  search_high_value_cards cards threshold
  = filter (fun card =>
              negb (is_nan (market_value card) || is_nan threshold))
      (search_by_value cards (Some threshold) None).
Proof.
  unfold search_high_value_cards, search_by_value.
  rewrite filter_andb. apply filter_ext. intros card.
  unfold value_keeps, num_ge. cbv zeta.
  destruct (is_nan (market_value card)) eqn:Ec.
  - destruct (market_value card); try discriminate.
    destruct threshold; reflexivity.
  - destruct (is_nan threshold) eqn:Et.
    + destruct threshold; try discriminate.
      destruct (market_value card); reflexivity.
    + cbn [orb negb]. rewrite andb_true_r.
      destruct (num_lt (market_value card) threshold) eqn:E.
      * apply not_true_is_false. intros Hle.
        apply num_le_lt_false in Hle. congruence.
      * now apply num_not_lt_le.
Qed.

Lemma prefix_refl (s : string) : String.prefix s s = true.
Proof.
  apply prefix_iff_append. exists ""%string.
  induction s; simpl; congruence.
Qed.

Lemma str_in_refl (s : string) : Py.str_in s s = true.
Proof. destruct s; cbn [Py.str_in]; now rewrite prefix_refl. Qed.

Lemma str_in_empty (s : string) : Py.str_in "" s = true.
Proof. now destruct s. Qed.

(** The exact search by name finds the rows of the substring search whose
    lower-cased name is the lower-cased query, and no other row. *)
Theorem search_by_name_exact_refines (cards : list Card) (name_ : string) :
  search_by_name cards name_ true
  = filter (fun card => (Py.lower (name card) =? Py.lower name_)%string)
      (search_by_name cards name_ false).
Proof.
  unfold search_by_name. cbv zeta. rewrite filter_andb.
  apply filter_ext. intros card.
  destruct (String.eqb_spec (Py.lower (name card)) (Py.lower name_)) as [E|E].
  - rewrite E. now rewrite str_in_refl.
  - now rewrite andb_false_r.
Qed.

(** The searches by text do not depend on the case of the query:
    lower-casing the query first changes nothing. *)
Theorem search_query_case_insensitive (cards : list Card) (q : string) :
  search_by_name cards (Py.lower q) false = search_by_name cards q false
  /\ search_by_name cards (Py.lower q) true = search_by_name cards q true
  /\ search_by_team cards (Py.lower q) = search_by_team cards q
  /\ search_by_brand cards (Py.lower q) = search_by_brand cards q
  /\ search_by_condition cards (Py.lower q) = search_by_condition cards q.
Proof.
  unfold search_by_name, search_by_team, search_by_brand,
    search_by_condition. cbv zeta. rewrite lower_idem. repeat split.
Qed.

(** An empty query matches every text: the substring searches by name,
    team and brand then return the whole collection, and the search by
    condition the rows that have a condition. *)
Theorem search_empty_query (cards : list Card) :
  search_by_name cards "" false = cards
  /\ search_by_team cards "" = cards
  /\ search_by_brand cards "" = cards
  /\ search_by_condition cards ""
     = filter (fun card => Py.truthy_str (condition card)) cards.
Proof.
  unfold search_by_name, search_by_team, search_by_brand,
    search_by_condition. cbv zeta. cbn [Py.lower].
  repeat split;
    try (rewrite <- (filter_true cards) at 2; apply filter_ext; intros card;
         apply str_in_empty).
  apply filter_ext. intros card. rewrite str_in_empty. apply andb_true_r.
Qed.

(** With no exact year and at least one bound given, [search_by_year]
    returns the rows whose year lies between the bounds, both included; a
    bound that is [None] or 0 is no bound. *)
Theorem search_by_year_range (cards : list Card)
  (year_min year_max : option Z) :
  (is_given year_min || is_given year_max)%bool = true ->
  search_by_year cards None year_min year_max
  = filter (within_range year_min year_max) cards.
Proof.
  intros Hgiven. unfold search_by_year. apply filter_ext. intros card.
  unfold year_keeps, within_range.
  destruct year_min as [m|], year_max as [m'|]; cbn [Py.truthy_oint];
    try discriminate; rewrite ?Z.gtb_ltb;
    repeat match goal with
    | |- context [?x =? ?y] => destruct (Z.eqb_spec x y)
    | |- context [?x <? ?y] => destruct (Z.ltb_spec x y)
    | |- context [?x <=? ?y] => destruct (Z.leb_spec x y)
    end; cbn; try reflexivity; try lia.
Qed.

Lemma search_by_year_range_witness :
  (is_given (Some 0) || is_given (Some 2016))%bool = true
  /\ search_by_year [card_2000; tie_first; dear] None (Some 0) (Some 2016)
     = filter (within_range (Some 0) (Some 2016))
         [card_2000; tie_first; dear].
Proof.
  split; [reflexivity|].
  apply (search_by_year_range [card_2000; tie_first; dear]
           (Some 0) (Some 2016)).
  reflexivity.
Defined.

(** The quick searches of the command line: [search_by_year(year_max=1999)]
    selects the rows of the vintage mask of the analysis, and
    [search_by_year(year_min=2020)] those of its recent mask. *)
Theorem quick_year_searches (cards : list Card) :
  search_by_year cards None None (Some 1999)
  = AnalyzeCollection.vintage_90s cards
  /\ search_by_year cards None (Some 2020) None
     = AnalyzeCollection.recent_2020s cards.
Proof.
  unfold search_by_year, AnalyzeCollection.vintage_90s,
    AnalyzeCollection.recent_2020s, AnalyzeCollection.vintage_90s_mask,
    AnalyzeCollection.recent_2020s_mask.
  split; apply filter_ext; intros card; unfold year_keeps;
    cbn [Py.truthy_oint Z.eqb negb andb]; rewrite ?Z.gtb_ltb, ?Z.geb_leb.
  - destruct (Z.ltb_spec 1999 (year card)), (Z.leb_spec (year card) 1999);
      try reflexivity; lia.
  - destruct (Z.ltb_spec (year card) 2020), (Z.leb_spec 2020 (year card));
      try reflexivity; lia.
Qed.

End Searches.

(** ** Sorting by any key *)

Section SortResults.
Import CardSearcher.

(** The cases of [sort_results], by the key chosen. *)
Lemma sort_results_cases (results : list Card) (sort_by : string)
  (descending : bool) :
  sort_results results sort_by descending
  = Py.sort market_value num_lt descending results
  \/ sort_results results sort_by descending
     = Py.sort year Z.ltb descending results
  \/ (exists f : Card -> string,
         sort_results results sort_by descending
         = Py.sort f String.ltb descending results)
  \/ sort_results results sort_by descending = results
     /\ forall l, sort_results l sort_by descending = l.
Proof.
  unfold sort_results.
  destruct (sort_by =? "value")%string; [now left|].
  destruct (sort_by =? "year")%string; [now right; left|].
  destruct (sort_by =? "name")%string; [right; right; left; eauto|].
  destruct (sort_by =? "team")%string; [right; right; left; eauto|].
  destruct (sort_by =? "brand")%string; [right; right; left; eauto|].
  right; right; right. now split.
Qed.

(** Whatever the key and the direction, [sort_results] returns the rows it
    was given: none is lost, added or repeated. *)
Theorem sort_results_permutation (results : list Card) (sort_by : string)
  (descending : bool) :
  Permutation (sort_results results sort_by descending) results.
Proof.
  destruct (sort_results_cases results sort_by descending)
    as [E|[E|[[f E]|[E _]]]]; rewrite E;
    try apply sort_perm; reflexivity.
Qed.





(** Sorting by name is stable, and the names are compared without their
    case: two cards whose names differ at most in case keep their order,
    in both directions. *)
Theorem sort_results_name_stable (results : list Card) (descending : bool)
  (c1 c2 : Card) :
  Py.lower (name c1) = Py.lower (name c2) ->
  filter (fun card => (card_eqb card c1 || card_eqb card c2)%bool)
    (sort_results results "name" descending)
  = filter (fun card => (card_eqb card c1 || card_eqb card c2)%bool)
      results.
Proof.
  intros Heq.
  change (sort_results results "name" descending)
    with (Py.sort (fun x => Py.lower (name x)) String.ltb descending
            results).
  apply (sort_filter_tied (fun x => Py.lower (name x)) String.ltb
           (fun _ => True)).
  - intros x y. apply string_ltb_asym.
  - intros x y z _ _ _. apply string_ltb_trans.
  - intros x y z _ _ _. apply string_geb_trans.
  - intros x y Hx Hy.
    assert (Hname : forall z,
               (card_eqb z c1 || card_eqb z c2)%bool = true ->
               Py.lower (name z) = Py.lower (name c1)).
    { intros z Hz. apply orb_true_iff in Hz.
      destruct Hz as [Hz|Hz]; apply card_eqb_fields in Hz;
        destruct Hz as [Hz _]; rewrite Hz; [reflexivity | now symmetry]. }
    unfold Py.islt. rewrite (Hname x Hx), (Hname y Hy).
    apply string_ltb_irrefl.
  - apply Forall_forall. intros x _. exact I.
Qed.

Lemma sort_results_name_stable_witness :
  Py.lower (name name_upper) = Py.lower (name name_lower)
  /\ filter (fun card =>
               (card_eqb card name_upper || card_eqb card name_lower)%bool)
       (sort_results [name_upper; name_other; name_lower] "name" false)
     = filter (fun card =>
                 (card_eqb card name_upper || card_eqb card name_lower)%bool)
         [name_upper; name_other; name_lower].
Proof.
  split; [reflexivity|].
  apply (sort_results_name_stable [name_upper; name_other; name_lower]
           false name_upper name_lower).
  reflexivity.
Defined.

End SortResults.

(** ** Limiting and the empty outcome *)

Section Limiting.
Import CardSearcher.

(** Limiting keeps a prefix of the results, whatever the cap [n]: the
    rows that stay are the first ones, in their order.  All of them stay
    for the cap 0, at most [n] for a positive cap, and for a negative cap
    all but the last [-n]. *)
Theorem limit_results_shape (results : list Card) (n : Z) :
  (exists dropped,
      results = (limit_results results (Some n) ++ dropped)%list)
  /\ Z.of_nat (List.length (limit_results results (Some n)))
     = if n =? 0 then Z.of_nat (List.length results)
       else if 0 <? n then Z.min n (Z.of_nat (List.length results))
       else Z.max 0 (Z.of_nat (List.length results) + n).
Proof.
  unfold limit_results, Py.slice_to. cbn [Py.truthy_oint].
  destruct (Z.eqb_spec n 0) as [->|Hn]; cbn [negb].
  - split; [exists []; now rewrite app_nil_r | reflexivity].
  - split.
    + destruct (n <? 0); eexists; symmetry; apply firstn_skipn.
    + destruct (Z.ltb_spec n 0), (Z.ltb_spec 0 n); try lia;
        rewrite length_firstn; lia.
Qed.

(** [format_results] answers that no card was found when there is no
    result, and also when a negative cap removes every result. *)
Theorem format_results_none_found (render : bool -> list Card -> string)
  (results : list Card) (detailed : bool) (p : positive) :
  (List.length results <= Pos.to_nat p)%nat ->
  format_results render results detailed (Some (Z.neg p))
  = "No cards found matching your criteria.".
Proof.
  intros Hlen. unfold format_results.
  rewrite limit_results_negative.
  replace (List.length results - Pos.to_nat p)%nat with O by lia.
  reflexivity.
Qed.

Lemma format_results_none_found_witness :
  (List.length [dear; cheap] <= Pos.to_nat 2)%nat
  /\ format_results (fun _ _ => "2 cards") [dear; cheap] false (Some (-2))
     = "No cards found matching your criteria.".
Proof.
  split; [simpl; lia|].
  apply (format_results_none_found (fun _ _ => "2 cards") [dear; cheap]
           false 2).
  simpl. lia.
Defined.

End Limiting.

(** ** The sale selection *)

Section Selection.
Import BatchOperations.

Lemma slice_to_firstn {A} (l : list A) (n : Z) :
  exists k, Py.slice_to l n = firstn k l.
Proof. unfold Py.slice_to. destruct (n <? 0); eauto. Qed.

Lemma In_firstn {A} (k : nat) (l : list A) (x : A) :
  In x (firstn k l) -> In x l.
Proof.
  intros H. rewrite <- (firstn_skipn k l). apply in_or_app. now left.
Qed.

Lemma select_In_candidate (cards : list Card) (min_value : num)
  (max_cards : Z) (exclude_favorites : bool) (card : Card) :
  In card (select_cards_for_sale cards min_value max_cards
             exclude_favorites) ->
  In card cards /\ sale_candidate min_value exclude_favorites card = true.
Proof.
  unfold select_cards_for_sale. cbv zeta.
  destruct (slice_to_firstn
              (Py.sort market_value num_lt true
                 (filter (sale_candidate min_value exclude_favorites) cards))
              max_cards) as [k ->].
  intros H. apply In_firstn in H.
  apply (Permutation_in _ (sort_perm market_value num_lt true _)) in H.
  now apply filter_In in H.
Qed.

(** What the loop of [select_cards_for_sale] has tested of a card that it
    appends. *)
Lemma sale_candidate_tests (min_value : num) (exclude_favorites : bool)
  (card : Card) :
  sale_candidate min_value exclude_favorites card = true ->
  num_lt (market_value card) min_value = false
  /\ In (condition card) ["Mint"; "Near Mint"; "Excellent"]
  /\ (exclude_favorites = true ->
      num_gt (market_value card) 500 = false
      /\ (is_rookie card = true -> num_gt (market_value card) 100 = false)
      /\ (year card <= 1980 -> num_gt (market_value card) 50 = false)).
Proof.
  unfold sale_candidate.
  destruct (num_lt (market_value card) min_value); [discriminate|].
  destruct exclude_favorites; cbn [andb].
  - destruct (num_gt (market_value card) 500); [discriminate|].
    destruct (is_rookie card); cbn [andb];
      destruct (num_gt (market_value card) 100); try discriminate;
      destruct (Z.leb_spec (year card) 1980) as [Hy|Hy]; cbn [andb];
      destruct (num_gt (market_value card) 50); try discriminate;
      intros Hcond; apply list_in_string_iff in Hcond;
      repeat split; auto; try discriminate; intros; lia.
  - intros Hcond. apply list_in_string_iff in Hcond.
    repeat split; auto; discriminate.
Qed.

(** Every card that the sale selection returns is a card of the
    collection that is not worth less than [min_value] and is in condition
    Mint, Near Mint or Excellent; with [exclude_favorites] it is moreover
    not worth more than 500, not more than 100 if it is a rookie card, and
    not more than 50 if its year is 1980 or earlier.  A card whose value
    is NaN passes each of these tests.  For a card whose value is not NaN
    they say that it is worth at least [min_value] (if that is not NaN),
    and at most 500, 100 and 50. *)
Theorem select_cards_for_sale_sound (cards : list Card) (min_value : num)
  (max_cards : Z) (exclude_favorites : bool) (card : Card) :
  In card (select_cards_for_sale cards min_value max_cards
             exclude_favorites) ->
  In card cards
  /\ num_lt (market_value card) min_value = false
  /\ In (condition card) ["Mint"; "Near Mint"; "Excellent"]
  /\ (exclude_favorites = true ->
      num_gt (market_value card) 500 = false
      /\ (is_rookie card = true -> num_gt (market_value card) 100 = false)
      /\ (year card <= 1980 -> num_gt (market_value card) 50 = false))
  /\ (is_nan (market_value card) = false ->
      (is_nan min_value = false ->
       num_ge (market_value card) min_value = true)
      /\ (exclude_favorites = true ->
          num_le (market_value card) 500 = true
          /\ (is_rookie card = true ->
              num_le (market_value card) 100 = true)
          /\ (year card <= 1980 ->
              num_le (market_value card) 50 = true))).
Proof.
  intros H. apply select_In_candidate in H. destruct H as [Hin Hc].
  apply sale_candidate_tests in Hc. destruct Hc as [Hmin [Hcond Hfav]].
  split; [exact Hin|]. split; [exact Hmin|]. split; [exact Hcond|].
  split; [exact Hfav|].
  intros Hnum. split.
  - intros Hm. unfold num_ge. now apply num_not_lt_le.
  - intros Hex. destruct (Hfav Hex) as [H500 [H100 H50]].
    unfold num_gt in *. split; [|split].
    + now apply (num_not_lt_le 500 (market_value card)).
    + intros Hrc. apply (num_not_lt_le 100 (market_value card)); auto.
    + intros Hy. apply (num_not_lt_le 50 (market_value card)); auto.
Qed.

Lemma select_cards_for_sale_sound_witness :
  In nan_cowboy
    (select_cards_for_sale
       [card_A blank_card; nan_cowboy; card_C blank_card] 10 2 true)
  /\ (In nan_cowboy [card_A blank_card; nan_cowboy; card_C blank_card]
      /\ num_lt (market_value nan_cowboy) 10 = false
      /\ In (condition nan_cowboy) ["Mint"; "Near Mint"; "Excellent"]
      /\ (true = true ->
          num_gt (market_value nan_cowboy) 500 = false
          /\ (is_rookie nan_cowboy = true ->
              num_gt (market_value nan_cowboy) 100 = false)
          /\ (year nan_cowboy <= 1980 ->
              num_gt (market_value nan_cowboy) 50 = false))
      /\ (is_nan (market_value nan_cowboy) = false ->
          (is_nan (Fin 10) = false ->
           num_ge (market_value nan_cowboy) 10 = true)
          /\ (true = true ->
              num_le (market_value nan_cowboy) 500 = true
              /\ (is_rookie nan_cowboy = true ->
                  num_le (market_value nan_cowboy) 100 = true)
              /\ (year nan_cowboy <= 1980 ->
                  num_le (market_value nan_cowboy) 50 = true)))).
Proof.
  split; [vm_compute; right; left; reflexivity|].
  apply (select_cards_for_sale_sound
           [card_A blank_card; nan_cowboy; card_C blank_card]
           10 2 true nan_cowboy).
  vm_compute. right. left. reflexivity.
Defined.


Lemma StronglySorted_app_R {A} (R : A -> A -> Prop) (l1 l2 : list A) :
  StronglySorted R (l1 ++ l2) ->
  forall x y, In x l1 -> In y l2 -> R x y.
Proof.
  induction l1 as [|a l1 IH]; intros Hs x y Hx Hy; [contradiction|].
  cbn [app] in Hs. apply StronglySorted_inv in Hs. destruct Hs as [Hs Hall].
  destruct Hx as [<-|Hx].
  - rewrite Forall_forall in Hall. apply Hall, in_or_app. now right.
  - now apply IH.
Qed.

Lemma all_numbers_filter (p : Card -> bool) (cards : list Card) :
  all_numbers cards = true -> all_numbers (filter p cards) = true.
Proof.
  unfold all_numbers. rewrite !forallb_forall. intros H card Hin.
  apply filter_In in Hin. now apply H.
Qed.

(** The candidates for sale of a collection without NaN, by descending
    value, before the cut at [max_cards]. *)
Lemma sorted_candidates_desc (cards : list Card) (min_value : num)
  (exclude_favorites : bool) :
  all_numbers cards = true ->
  Sorted (fun x y => num_le (market_value y) (market_value x) = true)
    (Py.sort market_value num_lt true
       (filter (sale_candidate min_value exclude_favorites) cards)).
Proof.
  intros Hnum.
  apply (sort_value_sorted
           (filter (sale_candidate min_value exclude_favorites) cards) true).
  now apply all_numbers_filter.
Qed.



(** In a collection without NaN the cut at [max_cards] keeps the dearest
    candidates: a card of the collection that qualifies for sale and is
    worth more than some selected card is selected too. *)
Theorem select_cards_for_sale_dearest (cards : list Card) (min_value : num)
  (max_cards : Z) (exclude_favorites : bool) (kept other : Card) :
  all_numbers cards = true ->
  In kept (select_cards_for_sale cards min_value max_cards
             exclude_favorites) ->
  In other cards ->
  sale_candidate min_value exclude_favorites other = true ->
  num_lt (market_value kept) (market_value other) = true ->
  In other (select_cards_for_sale cards min_value max_cards
              exclude_favorites).
Proof.
  intros Hnum. unfold select_cards_for_sale. cbv zeta.
  pose proof (sorted_candidates_desc cards min_value exclude_favorites Hnum)
    as Hsorted.
  set (sorted := Py.sort market_value num_lt true
                   (filter (sale_candidate min_value exclude_favorites)
                      cards)) in *.
  destruct (slice_to_firstn sorted max_cards) as [k ->].
  intros Hkept Hin Hcand Hlt.
  assert (Hother : In other sorted).
  { apply (Permutation_in _
             (Permutation_sym (sort_perm market_value num_lt true _))).
    apply filter_In. now split. }
  rewrite <- (firstn_skipn k sorted) in Hother.
  apply in_app_or in Hother. destruct Hother as [H|Hdropped]; [exact H|].
  exfalso.
  assert (Hss : StronglySorted
                  (fun x y => num_le (market_value y) (market_value x) = true)
                  (firstn k sorted ++ skipn k sorted)).
  { rewrite firstn_skipn. apply Sorted_StronglySorted; [|exact Hsorted].
    intros x y z Hxy Hyz. eapply num_le_trans; eassumption. }
  pose proof (StronglySorted_app_R _ _ _ Hss kept other Hkept Hdropped)
    as Hle.
  apply num_le_lt_false in Hle. congruence.
Qed.

Lemma select_cards_for_sale_dearest_witness :
  all_numbers [card_C blank_card; card_A blank_card; card_B blank_card]
  = true
  /\ In (card_B blank_card)
       (select_cards_for_sale
          [card_C blank_card; card_A blank_card; card_B blank_card] 10 2 true)
  /\ In (card_A blank_card)
       [card_C blank_card; card_A blank_card; card_B blank_card]
  /\ sale_candidate 10 true (card_A blank_card) = true
  /\ num_lt (market_value (card_B blank_card))
       (market_value (card_A blank_card)) = true
  /\ In (card_A blank_card)
       (select_cards_for_sale
          [card_C blank_card; card_A blank_card; card_B blank_card]
          10 2 true).
Proof.
  assert (H0 : all_numbers
                 [card_C blank_card; card_A blank_card; card_B blank_card]
               = true) by reflexivity.
  assert (H1 : In (card_B blank_card)
                 (select_cards_for_sale
                    [card_C blank_card; card_A blank_card;
                     card_B blank_card] 10 2 true))
    by (vm_compute; right; left; reflexivity).
  assert (H2 : In (card_A blank_card)
                 [card_C blank_card; card_A blank_card; card_B blank_card])
    by (right; left; reflexivity).
  assert (H3 : sale_candidate 10 true (card_A blank_card) = true)
    by reflexivity.
  assert (H4 : num_lt (market_value (card_B blank_card))
                 (market_value (card_A blank_card)) = true)
    by reflexivity.
  repeat split; try assumption.
  exact (select_cards_for_sale_dearest _ _ _ _ _ _ H0 H1 H2 H3 H4).
Defined.

(** With a NaN among the values the dearest candidate can be cut: of
    three cards worth 1, NaN and 3, the two selected are those worth 1 and
    NaN. *)
Example select_cards_for_sale_nan :
  select_cards_for_sale
    [ sale_card blank_card 2000 1 "Mint" "";
      sale_card blank_card 2000 NaN "Mint" "";
      sale_card blank_card 2000 3 "Mint" "" ] 0 2 false
  = [ sale_card blank_card 2000 1 "Mint" "";
      sale_card blank_card 2000 NaN "Mint" "" ].
Proof. reflexivity. Qed.

End Selection.

(** ** The listing helpers *)

Section Listings.

Lemma str_length_app (a b : string) :
  String.length (a ++ b) = (String.length a + String.length b)%nat.
Proof. induction a; simpl; congruence. Qed.

Lemma substring_0_length (n : nat) (s : string) :
  String.length (String.substring 0 n s) = Nat.min n (String.length s).
Proof.
  revert s. induction n as [|n IH]; intros [|c s]; simpl; try reflexivity.
  now rewrite IH.
Qed.

Lemma substring_0_app (a b : string) :
  String.substring 0 (String.length a) (a ++ b) = a.
Proof.
  induction a as [|c a IH]; simpl; [now destruct b|]. now rewrite IH.
Qed.

(** The cut of a title at [limit] characters, as both listers do it:
    the outcome is never longer than [limit] and starts as the full
    title does. *)
Lemma cut_title (limit : nat) (title : string) :
  let cut :=
    if Nat.ltb (limit + 3) (String.length title)
    then Py.str_slice_to title limit ++ "..."
    else title in
  (String.length cut <= limit + 3)%nat
  /\ String.substring 0 limit cut = String.substring 0 limit title.
Proof.
  cbv zeta. unfold Py.str_slice_to.
  destruct (Nat.ltb_spec (limit + 3) (String.length title)) as [Hlong|Hshort].
  - split.
    + rewrite str_length_app, substring_0_length. simpl. lia.
    + assert (Hlen : String.length (String.substring 0 limit title) = limit)
        by (rewrite substring_0_length; lia).
      rewrite <- Hlen at 1. apply substring_0_app.
  - split; [lia | reflexivity].
Qed.

(** An eBay title never has more than 80 characters, and its first 77
    characters are those of the full title, the parts joined by single
    spaces. *)
Theorem ebay_title_bounded (card : Card) :
  (String.length (eBayLister.generate_title card) <= 80)%nat
  /\ String.substring 0 77 (eBayLister.generate_title card)
     = String.substring 0 77 (Py.join " " (eBayLister.title_parts card)).
Proof.
  exact (cut_title 77 (Py.join " " (eBayLister.title_parts card))).
Qed.

(** A Facebook Marketplace title never has more than 100 characters, and
    its first 97 characters are those of the full title. *)
Theorem facebook_title_bounded (card : Card) :
  (String.length (FacebookLister.generate_marketplace_title card) <= 100)%nat
  /\ String.substring 0 97 (FacebookLister.generate_marketplace_title card)
     = String.substring 0 97
         (Py.join " " (FacebookLister.title_parts card)).
Proof.
  exact (cut_title 97 (Py.join " " (FacebookLister.title_parts card))).
Qed.

(** The eBay category follows the sport that [_determine_sport] of the
    batch operations answers for the team of the card, and ends in
    "Rookie" exactly for the rookie cards. *)
Theorem suggest_category_by_sport (card : Card) :
  eBayLister.suggest_category card
  = "Sports Mem, Cards & Fan Shop > Sports Trading Cards > "
    ++ BatchOperations._determine_sport (team card) ++ " Cards > "
    ++ (if (BatchOperations._determine_sport (team card) =? "Football")%string
        then "NFL" else "MLB")
    ++ (if is_rookie card then " > Rookie" else "").
Proof.
  unfold eBayLister.suggest_category, BatchOperations._determine_sport.
  change eBayLister.football_teams with BatchOperations.football_teams.
  destruct (Py.list_in String.eqb (team card) BatchOperations.football_teams);
    destruct (is_rookie card); reflexivity.
Qed.

(** [find_card_by_id] answers the first card of the collection that has
    the id, and [None] exactly when no card has it. *)
Theorem find_card_by_id_first (cards : list Card) (id : string) :
  match eBayLister.find_card_by_id cards id with
  | Some card =>
      exists before after,
        cards = (before ++ card :: after)%list
        /\ collx_id card = id
        /\ Forall (fun other => collx_id other <> id) before
  | None => Forall (fun other => collx_id other <> id) cards
  end.
Proof.
  unfold eBayLister.find_card_by_id.
  induction cards as [|c cards IH]; cbn [find]; [constructor|].
  destruct (String.eqb_spec (collx_id c) id) as [E|E].
  - exists [], cards. repeat split; [exact E | constructor].
  - destruct (find (fun card => (collx_id card =? id)%string) cards)
      as [card|].
    + destruct IH as [before [after [Hc [Hid Hall]]]].
      exists (c :: before), after. repeat split.
      * now rewrite Hc.
      * exact Hid.
      * now constructor.
    + now constructor.
Qed.

(** Both listers look a card up in the same way, and their search by name
    is the substring search of [CardSearcher]. *)
Lemma listers_agree (cards : list Card) (q : string) :
  FacebookLister.find_card_by_id cards q = eBayLister.find_card_by_id cards q
  /\ eBayLister.find_cards_by_name cards q
     = CardSearcher.search_by_name cards q false
  /\ FacebookLister.find_cards_by_name cards q
     = CardSearcher.search_by_name cards q false.
Proof. repeat split. Qed.

End Listings.

(** ** Dictionaries *)

Section DictFacts.
Context {K V : Type}.
Variable eqb : K -> K -> bool.
Hypothesis eqb_eq : forall a b, eqb a b = true <-> a = b.

Lemma dict_get_set (d : list (K * V)) (k k' : K) (v : V) :
  Py.dict_get eqb (Py.dict_set eqb d k v) k'
  = if eqb k k' then Some v else Py.dict_get eqb d k'.
Proof.
  induction d as [|[k0 v0] d IH]; cbn [Py.dict_set Py.dict_get].
  - reflexivity.
  - destruct (eqb k0 k) eqn:E0; cbn [Py.dict_get].
    + apply eqb_eq in E0. subst k0. now destruct (eqb k k').
    + rewrite IH. destruct (eqb k0 k') eqn:E1, (eqb k k') eqn:E2;
        try reflexivity.
      apply eqb_eq in E1, E2. subst. 
      assert (eqb k' k' = true) by now apply eqb_eq. congruence.
Qed.

End DictFacts.

(** ** Reports and pricing of the batch operations *)

Section BatchReports.
Import BatchOperations.

(** The inventory report has one row for each card, in the order of
    [sort_results] by descending value, and the derived columns of a row
    are computed from the card of that row. *)
Theorem generate_inventory_report_rows (cards : list Card) :
  generate_inventory_report cards
  = map enhance (CardSearcher.sort_results cards "value" true).
Proof.
  unfold generate_inventory_report. cbv zeta.
  apply (sort_map enhance (fun x => market_value (ec_card x)) num_lt).
Qed.

Variable now : string.
Variable rounded_share : num -> num -> num.

Lemma string_eqb_eq (a b : string) : (a =? b)%string = true <-> a = b.
Proof. apply String.eqb_eq. Qed.

Lemma add_to_tier_get (tiers : list (string * list CardPricing))
  (card : CardPricing) (tier : string) :
  Py.dict_get String.eqb (add_to_tier tiers card) tier
  = if (cp_tier card =? tier)%string
    then Some (match Py.dict_get String.eqb tiers (cp_tier card) with
               | Some l => l
               | None => []
               end ++ [card])%list
    else Py.dict_get String.eqb tiers tier.
Proof.
  unfold add_to_tier, Py.dict_mem. cbv zeta.
  destruct (Py.dict_get String.eqb tiers (cp_tier card)) as [l|] eqn:Eget;
    cbn [negb].
  - rewrite (dict_get_set String.eqb string_eqb_eq), Eget. reflexivity.
  - rewrite !(dict_get_set String.eqb string_eqb_eq), String.eqb_refl.
    destruct (cp_tier card =? tier)%string; [reflexivity|].
    reflexivity.
Qed.

Lemma fold_add_to_tier_get (entries : list CardPricing)
  (tiers : list (string * list CardPricing)) (tier : string) :
  Py.dict_get String.eqb (fold_left add_to_tier entries tiers) tier
  = match Py.dict_get String.eqb tiers tier,
          filter (fun e => (cp_tier e =? tier)%string) entries with
    | None, [] => None
    | None, group => Some group
    | Some l, group => Some (l ++ group)%list
    end.
Proof.
  revert tiers. induction entries as [|e entries IH]; intros tiers.
  - cbn [fold_left filter].
    destruct (Py.dict_get String.eqb tiers tier); [|reflexivity].
    now rewrite app_nil_r.
  - cbn [fold_left filter]. rewrite IH, add_to_tier_get.
    destruct (String.eqb_spec (cp_tier e) tier) as [E|E].
    + subst tier.
      destruct (Py.dict_get String.eqb tiers (cp_tier e)) as [l|].
      * now rewrite <- app_assoc.
      * reflexivity.
    + reflexivity.
Qed.

(** In the pricing strategy, the entries are grouped by tier without loss
    and in their order: the group of a tier holds exactly the entries of
    that tier, in the order of [strategy['cards']], and a tier without
    entries has no group. *)
Theorem pricing_tiers_grouped (cards : list Card) (market_factor : num)
  (tier : string) :
  let strategy :=
    create_pricing_strategy now rounded_share cards market_factor in
  Py.dict_get String.eqb (st_pricing_tiers strategy) tier
  = match filter (fun e => (cp_tier e =? tier)%string) (st_cards strategy)
    with
    | [] => None
    | group => Some group
    end.
Proof.
  cbv zeta. unfold create_pricing_strategy.
  cbn [st_pricing_tiers st_cards].
  rewrite fold_add_to_tier_get. reflexivity.
Qed.

(** The entries of the pricing strategy follow the cards given, one for
    one: the same number, the same ids and market values in the same
    order, each with the tier of [_categorize_value]. *)
Lemma pricing_entries (cards : list Card) (market_factor : num) :
  let strategy :=
    create_pricing_strategy now rounded_share cards market_factor in
  st_total_cards strategy = List.length (st_cards strategy)
  /\ map cp_collx_id (st_cards strategy) = map collx_id cards
  /\ map cp_tier (st_cards strategy)
     = map (fun card => _categorize_value (market_value card)) cards.
Proof.
  cbv zeta. unfold create_pricing_strategy. cbn [st_total_cards st_cards].
  rewrite length_map, !map_map. repeat split.
Qed.

End BatchReports.

(** ** The statistics of the analysis scripts *)

Section Statistics.

(** The four era counters of [simple_analysis.py] count every parsed year
    once: they add up to the number of years. *)
Theorem era_counters_total (years : list Z) :
  (SimpleAnalysis.vintage_90s years + SimpleAnalysis.early_2000s years
   + SimpleAnalysis.modern_2010s years + SimpleAnalysis.recent_2020s years
   = List.length years)%nat.
Proof.
  unfold SimpleAnalysis.vintage_90s, SimpleAnalysis.early_2000s,
    SimpleAnalysis.modern_2010s, SimpleAnalysis.recent_2020s,
    SimpleAnalysis.count_if.
  induction years as [|y years IH]; [reflexivity|].
  cbn [filter]. rewrite Z.geb_leb.
  destruct (Z.leb_spec y 1999), (Z.leb_spec 2000 y), (Z.leb_spec y 2009),
    (Z.leb_spec 2010 y), (Z.leb_spec y 2019), (Z.leb_spec 2020 y);
    cbn [andb List.length]; lia.
Qed.

Lemma era_key_eqb_eq (a b : Visualizations.era_key) :
  Visualizations.era_key_eqb a b = true <-> a = b.
Proof. destruct a, b; cbn; split; congruence. Qed.

Lemma increment_counted (counts : list (Visualizations.era_key * nat))
  (k k' : Visualizations.era_key) :
  Py.dict_get Visualizations.era_key_eqb
    (Visualizations.increment counts k) k'
  = if Visualizations.era_key_eqb k k' then Some (counted counts k + 1)%nat
    else Py.dict_get Visualizations.era_key_eqb counts k'.
Proof.
  unfold Visualizations.increment.
  now rewrite (dict_get_set Visualizations.era_key_eqb era_key_eqb_eq).
Qed.

Lemma era_branch_counter (y : Z) (k : Visualizations.era_key) :
  era_counter k [y]
  = match Visualizations.era_branch y with
    | Some k' => if Visualizations.era_key_eqb k' k then 1%nat else O
    | None => O
    end.
Proof.
  unfold Visualizations.era_branch, era_counter,
    SimpleAnalysis.vintage_90s, SimpleAnalysis.early_2000s,
    SimpleAnalysis.modern_2010s, SimpleAnalysis.recent_2020s,
    SimpleAnalysis.count_if.
  cbn [filter]. rewrite Z.geb_leb.
  destruct k;
    destruct (Z.leb_spec y 1999), (Z.leb_spec 2000 y), (Z.leb_spec y 2009),
      (Z.leb_spec 2010 y), (Z.leb_spec y 2019), (Z.leb_spec 2020 y);
    cbn; try reflexivity; lia.
Qed.

Lemma era_counter_cons (k : Visualizations.era_key) (y : Z)
  (years : list Z) :
  era_counter k (y :: years) = (era_counter k [y] + era_counter k years)%nat.
Proof.
  destruct k; unfold era_counter, SimpleAnalysis.vintage_90s,
    SimpleAnalysis.early_2000s, SimpleAnalysis.modern_2010s,
    SimpleAnalysis.recent_2020s, SimpleAnalysis.count_if; cbn [filter];
    match goal with
    | |- context [if ?b then _ else _] => destruct b
    end; reflexivity.
Qed.

Lemma era_counts_fold (data : list Card)
  (counts : list (Visualizations.era_key * nat))
  (k : Visualizations.era_key) :
  (forall k' n,
      Py.dict_get Visualizations.era_key_eqb counts k' = Some n ->
      (0 < n)%nat) ->
  let final :=
    fold_left (fun counts card =>
                 match Visualizations.era_branch (year card) with
                 | Some k => Visualizations.increment counts k
                 | None => counts
                 end) data counts in
  counted final k = (counted counts k + era_counter k (map year data))%nat
  /\ forall n,
       Py.dict_get Visualizations.era_key_eqb final k = Some n ->
       (0 < n)%nat.
Proof.
  cbv zeta. revert counts.
  induction data as [|card data IH]; intros counts Hpos.
  - cbn [fold_left map]. split; [|apply Hpos].
    destruct k; cbn; lia.
  - cbn [fold_left map]. rewrite era_counter_cons, era_branch_counter.
    destruct (Visualizations.era_branch (year card)) as [k0|].
    + destruct (IH (Visualizations.increment counts k0)) as [Hc Hp].
      { intros k' n. rewrite increment_counted.
        destruct (Visualizations.era_key_eqb k0 k'); [|apply Hpos].
        intros [= <-]. lia. }
      split; [|exact Hp]. rewrite Hc. unfold counted at 1.
      rewrite increment_counted.
      destruct (Visualizations.era_key_eqb k0 k) eqn:E.
      * apply era_key_eqb_eq in E. subst k0. lia.
      * fold (counted counts k). lia.
    + destruct (IH counts Hpos) as [Hc Hp]. split; [|exact Hp].
      rewrite Hc. lia.
Qed.

(** The dictionary of the era chart holds, for each era, the number that
    the counter of [simple_analysis.py] finds for the years of the cards;
    an era without a card has no entry.  So the chain of tests of the chart
    and the four tests of the analysis classify every year alike. *)
Theorem era_counts_agree (data : list Card) (k : Visualizations.era_key) :
  Py.dict_get Visualizations.era_key_eqb (Visualizations.era_counts data) k
  = if Nat.eqb (era_counter k (map year data)) 0 then None
    else Some (era_counter k (map year data)).
Proof.
  unfold Visualizations.era_counts.
  destruct (era_counts_fold data [] k) as [Hc Hp]; [discriminate|].
  unfold counted in Hc. cbn [Py.dict_get] in Hc.
  rewrite Nat.add_0_l in Hc.
  destruct (Py.dict_get Visualizations.era_key_eqb
              (fold_left _ data [])) as [n|] eqn:E.
  - specialize (Hp n eq_refl). rewrite <- Hc.
    destruct (Nat.eqb_spec n 0); [lia | reflexivity].
  - now rewrite <- Hc.
Qed.

(** The average line of the value chart cannot be computed, the division
    being by zero, exactly when no card has a positive market value; an
    empty collection is such a case. *)
Theorem average_line_fails_iff (float_sum : list num -> num)
  (float_div : num -> nat -> num) (data : list Card) :
  Visualizations.average_line float_sum float_div data = None
  <-> Forall (fun card => num_gt (market_value card) 0 = false) data.
Proof.
  unfold Visualizations.average_line, Visualizations.positive_values.
  cbv zeta. rewrite length_map.
  induction data as [|card data IH]; cbn [filter List.length].
  - split; [constructor | reflexivity].
  - destruct (num_gt (market_value card) 0) eqn:E.
    + cbn [List.length]. split; [discriminate|].
      inversion 1 as [|? ? Hle _]; subst. congruence.
    + rewrite IH. split.
      * now constructor.
      * now inversion 1.
Qed.

End Statistics.

Section Median.

Lemma sorted_values_perm (values : list num) :
  Permutation (SimpleAnalysis.sorted_values values) values.
Proof. apply sort_forward_perm. Qed.

Lemma sorted_values_ordered (values : list num) :
  existsb is_nan values = false ->
  StronglySorted (fun x y => num_le x y = true)
    (SimpleAnalysis.sorted_values values).
Proof.
  intros Hnum. apply Sorted_StronglySorted.
  - intros x y z. apply num_le_trans.
  - apply (sort_num_sorted (fun v : num => v) values false).
    apply Forall_forall. intros x Hx.
    destruct (is_nan x) eqn:E; [|reflexivity].
    assert (existsb is_nan values = true)
      by (apply existsb_exists; eauto).
    congruence.
Qed.

(** The median of [simple_analysis.py], for a non-empty list of values,
    is one of the values, the one that stands at [len // 2] after
    [sorted].  When no value is NaN, the values can be split into
    [len // 2] values that are at most the median, the median itself, and
    the remaining values, which are at least the median; for an even
    number of values it is thus the upper one of the two middle values. *)
Theorem median_value_splits (v : num) (rest : list num) :
  exists m lo hi,
    SimpleAnalysis.median_value (v :: rest) = Some m
    /\ Permutation (v :: rest) (lo ++ m :: hi)
    /\ List.length lo = Nat.div (List.length (v :: rest)) 2
    /\ (existsb is_nan (v :: rest) = false ->
        Forall (fun x => num_le x m = true) lo
        /\ Forall (fun x => num_le m x = true) hi).
Proof.
  unfold SimpleAnalysis.median_value. cbv zeta.
  pose proof (sorted_values_perm (v :: rest)) as Hperm.
  pose proof (sorted_values_ordered (v :: rest)) as Hord.
  set (s := SimpleAnalysis.sorted_values (v :: rest)) in *.
  assert (Hlen : List.length s = List.length (v :: rest))
    by now apply Permutation_length.
  assert (Hk : (Nat.div (List.length s) 2 < List.length s)%nat).
  { apply Nat.div_lt; [rewrite Hlen; cbn; lia | lia]. }
  destruct (nth_error s (Nat.div (List.length s) 2)) as [m|] eqn:Enth;
    [|apply nth_error_None in Enth; lia].
  pose proof (firstn_skipn_middle _ _ Enth) as Hsplit.
  exists m, (firstn (Nat.div (List.length s) 2) s),
    (skipn (S (Nat.div (List.length s) 2)) s).
  rewrite Hsplit. split; [reflexivity|]. split; [|split].
  - now symmetry.
  - rewrite length_firstn, <- Hlen. lia.
  - intros Hnum. specialize (Hord Hnum). rewrite <- Hsplit in Hord. split.
    + apply Forall_forall. intros x Hx.
      apply (StronglySorted_app_R _ _ _ Hord x m Hx). now left.
    + apply StronglySorted_app_tail in Hord.
      apply StronglySorted_inv in Hord. tauto.
Qed.

(** With a NaN among the values the median need not lie in the middle:
    of 3, NaN and 1 it is NaN, and of 2, NaN, 1 and 0 it is 0. *)
Example median_value_nan :
  SimpleAnalysis.median_value [Fin 3; NaN; Fin 1] = Some NaN
  /\ SimpleAnalysis.median_value [Fin 2; NaN; Fin 1; Fin 0] = Some (Fin 0).
Proof. split; reflexivity. Qed.

Lemma num_gt_step (m x x' : num) :
  num_gt x m = false -> num_gt x' m = true -> num_gt x x' = false.
Proof. unfold num_gt. destruct m, x, x'; num_solve. Qed.

Lemma fold_max (rest : list num) (start : num) :
  let m := fold_left (fun m x => if num_gt x m then x else m)
             rest start in
  In m (start :: rest)
  /\ (forall seen : list num,
         Forall (fun x => num_gt x start = false) seen ->
         Forall (fun x => num_gt x m = false) (seen ++ rest)).
Proof.
  cbv zeta. revert start.
  induction rest as [|x rest IH]; intros start; cbn [fold_left].
  - split; [now left|]. intros seen Hseen. now rewrite app_nil_r.
  - destruct (num_gt x start) eqn:E.
    + destruct (IH x) as [Hin Hall]. split; [right; exact Hin|].
      intros seen Hseen.
      replace (seen ++ x :: rest)%list with ((seen ++ [x]) ++ rest)%list
        by now rewrite <- app_assoc.
      apply Hall. apply Forall_app. split.
      * apply (Forall_impl _ (fun y Hy => num_gt_step start y x Hy E) Hseen).
      * constructor; [|constructor]. unfold num_gt.
        destruct x; num_solve.
    + destruct (IH start) as [Hin Hall]. split.
      * destruct Hin as [H|H]; [now left | right; now right].
      * intros seen Hseen.
        replace (seen ++ x :: rest)%list with ((seen ++ [x]) ++ rest)%list
          by now rewrite <- app_assoc.
        apply Hall. apply Forall_app. split; [exact Hseen|].
        now constructor.
Qed.

(** The greatest value of [simple_analysis.py], for a non-empty list of
    values, is one of the values, and no value exceeds it. *)
Theorem max_value_greatest (v : num) (rest : list num) :
  exists top,
    SimpleAnalysis.max_value (v :: rest) = Some top
    /\ In top (v :: rest)
    /\ Forall (fun x => num_gt x top = false) (v :: rest).
Proof.
  unfold SimpleAnalysis.max_value.
  destruct (fold_max rest v) as [Hin Hall].
  eexists. split; [reflexivity|]. split; [exact Hin|].
  apply (Hall [v]). constructor; [|constructor].
  unfold num_gt. destruct v; num_solve.
Qed.

End Median.

Section TitleContent.

Lemma str_app_assoc (a b c : string) : ((a ++ b) ++ c = a ++ (b ++ c))%string.
Proof. induction a; simpl; congruence. Qed.

Lemma str_app_nil_r (a : string) : (a ++ "")%string = a.
Proof. induction a; simpl; congruence. Qed.

Lemma join_contains (sep : string) (parts : list string) (x : string) :
  In x parts -> exists a b, Py.join sep parts = (a ++ x ++ b)%string.
Proof.
  unfold Py.join.
  induction parts as [|p parts IH]; [contradiction|].
  intros [->|Hin].
  - destruct parts as [|q parts].
    + exists ""%string, ""%string. cbn. now rewrite str_app_nil_r.
    + now exists ""%string, (sep ++ String.concat sep (q :: parts))%string.
  - destruct parts as [|q parts]; [contradiction|].
    destruct (IH Hin) as [a [b Hab]].
    exists (p ++ sep ++ a)%string, b.
    change (String.concat sep (p :: q :: parts))
      with (p ++ sep ++ String.concat sep (q :: parts))%string.
    rewrite Hab. now rewrite !str_app_assoc.
Qed.

Lemma ebay_title_parts_name (card : Card) :
  In (name card) (eBayLister.title_parts card).
Proof.
  unfold eBayLister.title_parts. cbv zeta.
  repeat match goal with
         | |- context [if ?b then _ else _] => destruct b
         end;
    repeat (apply in_or_app; first [now right; left | left]);
    now (apply in_or_app; right; left).
Qed.

(** An eBay title that needs no cut names the player: the name of the
    card occurs in it. *)
Theorem ebay_title_names_player (card : Card) :
  (String.length (Py.join " " (eBayLister.title_parts card)) <= 80)%nat ->
  Py.str_in (name card) (eBayLister.generate_title card) = true.
Proof.
  intros Hshort. unfold eBayLister.generate_title. cbv zeta.
  destruct (Nat.ltb_spec 80
              (String.length (Py.join " " (eBayLister.title_parts card))));
    [lia|].
  apply str_in_iff, join_contains, ebay_title_parts_name.
Qed.

Lemma ebay_title_names_player_witness :
  (String.length (Py.join " " (eBayLister.title_parts card_2000)) <= 80)%nat
  /\ Py.str_in (name card_2000) (eBayLister.generate_title card_2000) = true.
Proof.
  split; [vm_compute; lia|].
  apply (ebay_title_names_player card_2000). vm_compute. lia.
Defined.

End TitleContent.
